(** * Intelligent Task Scheduler: the scheduling engine of [app.py]

    A shallow embedding of the class [TaskScheduler] (priority scoring,
    conflict detection, slot suggestion and the four CRUD operations over
    the in-memory task dictionary), together with the properties that the
    design document states about it.

    Modelling conventions.
    - A task is a Python [dict] from field names to JSON values: it is a
      [gmap string value].  [d.get(k, v)] is [get k v d], [d.update(u)] is
      the left-biased union [u ∪ d].
    - [self.tasks] is an insertion-ordered Python [dict] keyed by task id:
      an association list, with the dictionary operations of module
      [PyDict]; iteration order is list order.
    - A clock reading, of type [datetime], is a number of microseconds (the
      resolution of Python's [datetime]) since 0001-01-01T00:00:00; a
      [timedelta] is a number of microseconds.  The calendar ends with the
      year 9999 and a [timedelta] has a range of its own: arithmetic that
      leaves either raises [OverflowError].
    - ISO-8601 text without a UTC offset, which [fromisoformat] reads as
      the naive datetime with reading [t], is the value [VTime t]; this is
      also the text that [isoformat] produces.  ISO text with a UTC offset
      [o], read as an aware datetime, is [VTimeTz t o].  Text in a date
      field that [fromisoformat] rejects is a [VStr].  A Python [datetime]
      object, naive or aware, is a [pydatetime]; comparing or subtracting a
      naive and an aware one raises [TypeError].
    - Python numbers ([int] and [float]) are exact rationals.  This is an
      idealisation of the arithmetic of [calculate_priority_score]:
      rounding errors of binary floating point are not modelled,
      [round(x, 2)] is rounding of the exact value to the nearest hundredth
      with ties to even, and numbers beyond the range of a double do not
      overflow.  A score of the model can therefore differ from the score
      of the program in its last digit.  Durations are exact: a whole
      number of minutes is converted to microseconds without rounding.
    - Every reading of the wall clock within one call of an engine
      operation yields the same instant [now], a parameter of the
      operation, taken to lie more than a week before the end of the
      calendar; the draw [uuid.uuid4()] of [create_task] is a parameter too.
    - A raised Python exception is the outcome [Raise e]; mutations made
      before the exception stay in the store. *)

From Stdlib Require Import ZArith QArith Qround Qminmax Lia Lqa List Permutation Sorted.
From stdpp Require Import base option gmap strings list fin_maps.

Local Open Scope Z_scope.

(** ** Python values, exceptions and dictionaries *)

Inductive exn : Type :=
| TypeError
| ValueError
| KeyError
| OverflowError.

Inductive res (A : Type) : Type :=
| Ok (a : A)
| Raise (e : exn).

Arguments Ok {A} a.
Arguments Raise {A} e.

#[global] Instance res_ret : MRet res := fun A a => Ok a.
#[global] Instance res_bind : MBind res := fun A B f m =>
  match m with
  | Ok a => f a
  | Raise e => Raise e
  end.
#[global] Instance res_fmap : FMap res := fun A B f m =>
  match m with
  | Ok a => Ok (f a)
  | Raise e => Raise e
  end.

Definition datetime : Type := Z.
Definition timedelta : Type := Z.

Inductive value : Type :=
| VNone
| VNum (q : Q)
| VStr (s : string)
| VTime (t : datetime)
| VTimeTz (t : datetime) (offset : timedelta)
| VTags (l : list string).

Abbreviation pydict := (gmap string value).

(** [d.get(k, v)] *)
Definition get (k : string) (v : value) (d : pydict) : value :=
  default v (d !! k).

(** [d.get(k)], which is [None] for a missing key *)
Definition get_none (k : string) (d : pydict) : value :=
  get k VNone d.

(** [d[k]] *)
Definition getitem (k : string) (d : pydict) : res value :=
  match d !! k with
  | Some v => Ok v
  | None => Raise KeyError
  end.

(** [d.update(u)] *)
Definition update (u d : pydict) : pydict := u ∪ d.

(** [v == s] for a string literal [s]: values of another type are unequal. *)
Definition eq_str (v : value) (s : string) : bool :=
  match v with
  | VStr s' => bool_decide (s' = s)
  | _ => false
  end.

(** A value used as a number. *)
Definition num_of (v : value) : res Q :=
  match v with
  | VNum q => Ok q
  | _ => Raise TypeError
  end.

(** ** Numbers *)

(** Python's [max(a, b)] and [min(a, b)]: the first argument wins a tie. *)
Definition py_max (a b : Q) : Q := if Qle_bool b a then a else b.
Definition py_min (a b : Q) : Q := if Qle_bool a b then a else b.

Definition round_half_even (q : Q) : Z :=
  let f := Qfloor q in
  match (q - inject_Z f ?= 1 # 2)%Q with
  | Lt => f
  | Gt => f + 1
  | Eq => if Z.even f then f else f + 1
  end.

(** [round(x, 2)] *)
Definition round2 (q : Q) : Q := (round_half_even (q * 100) # 100)%Q.

(** ** Dates and durations *)

Definition MINUTE : timedelta := 60000000.
Definition HOUR : timedelta := 60 * MINUTE.
Definition DAY : timedelta := 24 * HOUR.

(** [datetime.max], the last microsecond of the year 9999, and
    [timedelta.min] and [timedelta.max]. *)
Definition MAX_DATETIME : datetime := 3652059 * DAY - 1.
Definition MIN_TIMEDELTA : timedelta := - 999999999 * DAY.
Definition MAX_TIMEDELTA : timedelta := 1000000000 * DAY - 1.

(** A Python [datetime] object: its wall-clock reading and, when it is
    aware, its offset from UTC. *)
Record pydatetime : Type := mkDatetime {
  wall : datetime;
  utcoffset : option timedelta
}.

(** [datetime.now()] and every other naive datetime *)
Definition naive (t : datetime) : pydatetime :=
  {| wall := t; utcoffset := None |}.

(** [datetime.fromisoformat(v)] *)
Definition fromisoformat (v : value) : res pydatetime :=
  match v with
  | VTime t => Ok (naive t)
  | VTimeTz t o => Ok {| wall := t; utcoffset := Some o |}
  | VStr _ => Raise ValueError
  | _ => Raise TypeError
  end.

(** [timedelta(minutes=v)]: a fractional number of minutes is rounded to
    the nearest microsecond; the result has to lie in the range of
    [timedelta]. *)
Definition timedelta_minutes (v : value) : res timedelta :=
  q ← num_of v;
  let td := round_half_even (q * inject_Z MINUTE) in
  if (MIN_TIMEDELTA <=? td) && (td <=? MAX_TIMEDELTA) then Ok td
  else Raise OverflowError.

(** [a + td]: the reading moves, the offset stays; the result has to lie
    in the calendar. *)
Definition datetime_add (a : pydatetime) (td : timedelta) : res pydatetime :=
  let t := wall a + td in
  if (0 <=? t) && (t <=? MAX_DATETIME) then
    Ok {| wall := t; utcoffset := utcoffset a |}
  else Raise OverflowError.

(** [a - b] and [a < b]: two naive datetimes are compared by their
    readings, two aware ones by their instants, and a naive one is not
    comparable with an aware one. *)
Definition datetime_sub (a b : pydatetime) : res timedelta :=
  match utcoffset a, utcoffset b with
  | None, None => Ok (wall a - wall b)
  | Some oa, Some ob => Ok ((wall a - oa) - (wall b - ob))
  | _, _ => Raise TypeError
  end.

Definition datetime_lt (a b : pydatetime) : res bool :=
  match utcoffset a, utcoffset b with
  | None, None => Ok (wall a <? wall b)
  | Some oa, Some ob => Ok (wall a - oa <? wall b - ob)
  | _, _ => Raise TypeError
  end.

(** [td.total_seconds()] *)
Definition total_seconds (td : timedelta) : Q := (td # 1000000)%Q.

(** ** Priority scoring *)

Definition calculate_priority_score (now : datetime) (task : pydict) : res Q :=
  let base_priority := get "priority" (VNum 5) task in
  deadline ← fromisoformat (get "deadline" (VTime now) task);
  let estimated_duration := get "estimated_duration" (VNum 60) task in
  until ← datetime_sub deadline (naive now);
  let time_until_deadline := (total_seconds until / 3600)%Q in
  let urgency_factor := py_max 0 (10 - time_until_deadline / 24)%Q in
  d ← num_of estimated_duration;
  let duration_factor := py_min (d / 120)%Q 2 in
  p ← num_of base_priority;
  let priority_score := (p * 2 + urgency_factor + duration_factor)%Q in
  mret (round2 priority_score).

(** ** The insertion-ordered dictionary [self.tasks] *)

Module PyDict.
Section Dict.
Context {V : Type}.

Definition t : Type := list (string * V).

(** [d.get(k)] as an option, and [k in d] *)
Fixpoint lookup (k : string) (d : t) : option V :=
  match d with
  | [] => None
  | (k', v) :: d' => if decide (k = k') then Some v else lookup k d'
  end.

Definition contains (k : string) (d : t) : bool :=
  match lookup k d with Some _ => true | None => false end.

(** [d[k] = v]: an existing key keeps its position, a new key goes last. *)
Fixpoint setitem (k : string) (v : V) (d : t) : t :=
  match d with
  | [] => [(k, v)]
  | (k', v') :: d' =>
      if decide (k = k') then (k, v) :: d' else (k', v') :: setitem k v d'
  end.

(** [d.pop(k)] on a dictionary that holds [k]: the remaining entries. *)
Fixpoint remove (k : string) (d : t) : t :=
  match d with
  | [] => []
  | (k', v') :: d' =>
      if decide (k = k') then d' else (k', v') :: remove k d'
  end.

Definition keys (d : t) : list string := map fst d.
Definition values (d : t) : list V := map snd d.

(** The keys of a dictionary are pairwise distinct. *)
Definition wf (d : t) : Prop := List.NoDup (keys d).
End Dict.
Arguments t : clear implicits.
End PyDict.

(** ** The scheduler object and its methods *)

Record TaskScheduler : Type := mkScheduler {
  tasks : PyDict.t pydict;
  schedule : list pydict
}.

(** [TaskScheduler()] *)
Definition init : TaskScheduler := {| tasks := []; schedule := [] |}.

Definition set_tasks (d : PyDict.t pydict) (self : TaskScheduler) : TaskScheduler :=
  {| tasks := d; schedule := schedule self |}.

(** A method that may mutate the scheduler and may raise. *)
Definition M (A : Type) : Type := TaskScheduler -> res A * TaskScheduler.

#[global] Instance M_ret : MRet M := fun A a self => (Ok a, self).
#[global] Instance M_bind : MBind M := fun A B f m self =>
  match m self with
  | (Ok a, self') => f a self'
  | (Raise e, self') => (Raise e, self')
  end.

(** A computation that does not touch the scheduler. *)
Definition lift {A : Type} (r : res A) : M A := fun self => (r, self).

(** A method call that reads the scheduler and may raise. *)
Definition reads {A : Type} (f : TaskScheduler -> res A) : M A :=
  fun self => (f self, self).
Definition gets {A : Type} (f : TaskScheduler -> A) : M A :=
  fun self => (Ok (f self), self).
Definition modify (f : TaskScheduler -> TaskScheduler) : M unit :=
  fun self => (Ok tt, f self).

(** *** Conflict detection *)

Record conflict : Type := mkConflict {
  c_task_id : string;
  c_title : value;
  c_time : value
}.

(** The start and the end that [detect_conflicts] computes for a task, the
    candidate or a stored one: it starts at [scheduled_time] and lasts
    [estimated_duration] minutes, with the defaults of [detect_conflicts]. *)
Definition task_span (now : datetime) (task : pydict)
    : res (pydatetime * pydatetime) :=
  start ← fromisoformat (get "scheduled_time" (VTime now) task);
  d ← timedelta_minutes (get "estimated_duration" (VNum 60) task);
  finish ← datetime_add start d;
  mret (start, finish).

(** The readings of the start and the end of a task whose scheduled time
    carries no UTC offset. *)
Definition task_interval (now : datetime) (task : pydict)
    : res (datetime * datetime) :=
  '(start, finish) ← task_span now task;
  match utcoffset start with
  | None => Ok (wall start, wall finish)
  | Some _ => Raise TypeError
  end.

Definition is_completed (task : pydict) : bool :=
  eq_str (get_none "status" task) "completed".

(** The entry appended to [conflicts] for a stored task. *)
Definition descriptor (task_id : string) (task : pydict) : conflict :=
  {| c_task_id := task_id;
     c_title := get_none "title" task;
     c_time := get_none "scheduled_time" task |}.

(** [new_start < task_end and new_end > task_start]: the second
    comparison is made only when the first is true. *)
Definition overlap (new_start new_end task_start task_end : pydatetime)
    : res bool :=
  b ← datetime_lt new_start task_end;
  if b : bool then datetime_lt task_start new_end else Ok false.

Fixpoint detect_conflicts_loop (now : datetime) (new_start new_end : pydatetime)
    (items : list (string * pydict)) (conflicts : list conflict)
    : res (list conflict) :=
  match items with
  | [] => Ok conflicts
  | (task_id, task) :: items' =>
      if is_completed task then
        detect_conflicts_loop now new_start new_end items' conflicts
      else
        '(task_start, task_end) ← task_span now task;
        b ← overlap new_start new_end task_start task_end;
        if b : bool then
          detect_conflicts_loop now new_start new_end items'
            (conflicts ++ [descriptor task_id task])
        else
          detect_conflicts_loop now new_start new_end items' conflicts
  end.

Definition detect_conflicts (now : datetime) (new_task : pydict)
    (self : TaskScheduler) : res (list conflict) :=
  '(new_start, new_end) ← task_span now new_task;
  detect_conflicts_loop now new_start new_end (tasks self) [].

(** *** Slot suggestion *)

Record suggestion : Type := mkSuggestion {
  suggested_time : datetime;
  reason : string;
  confidence : Z
}.

(** The number of hourly slots [current], [current + 1h], ... that lie
    strictly before [deadline]: the number of rounds the [while] loop of
    [suggest_optimal_time] can make from [current]. *)
Definition slots_before (deadline current : datetime) : nat :=
  Z.to_nat ((deadline - current + HOUR - 1) / HOUR).

(** The [while] loop, for a deadline without UTC offset.  [fuel] bounds
    the rounds; [checks] is a ghost counter of the calls of
    [detect_conflicts] made so far. *)
Fixpoint suggest_loop (now deadline : datetime) (task : pydict)
    (self : TaskScheduler) (fuel : nat) (checks : nat) (current_time : datetime)
    : res (nat * suggestion) :=
  let near_deadline :=
    Ok (checks, {| suggested_time := current_time;
                   reason := "Best available slot near deadline";
                   confidence := 60 |}) in
  match fuel with
  | O => near_deadline
  | S fuel' =>
      if current_time <? deadline then
        let test_task := <["scheduled_time" := VTime current_time]> task in
        conflicts ← detect_conflicts now test_task self;
        match conflicts with
        | [] => Ok (S checks, {| suggested_time := current_time;
                                 reason := "No conflicts detected";
                                 confidence := 95 |})
        | _ :: _ =>
            next ← datetime_add (naive current_time) HOUR;
            suggest_loop now deadline task self fuel' (S checks) (wall next)
        end
      else near_deadline
  end.

(** [suggest_optimal_time] with the ghost counter of conflict checks.  The
    local [duration] that the function reads on entry is never used.  With
    an aware deadline the first test [current_time < deadline] of the loop
    raises, [current_time] being naive. *)
Definition suggest_scan (now : datetime) (task : pydict)
    (self : TaskScheduler) : res (nat * suggestion) :=
  deadline ← fromisoformat (get "deadline" (VTime (now + 7 * DAY)) task);
  match utcoffset deadline with
  | None =>
      suggest_loop now (wall deadline) task self
        (slots_before (wall deadline) now) 0 now
  | Some _ => Raise TypeError
  end.

Definition suggest_optimal_time (now : datetime) (task : pydict)
    (self : TaskScheduler) : res suggestion :=
  snd <$> suggest_scan now task self.

(** *** Create *)

Record create_result : Type := mkCreateResult {
  cr_task : pydict;
  cr_conflicts : list conflict;
  cr_has_conflicts : bool;
  cr_suggestion : option suggestion
}.

(** The dictionary literal of [create_task]: the defaults of every field. *)
Definition new_task (now : datetime) (task_id : string) (task_data : pydict)
    : pydict :=
  {[ "id" := VStr task_id;
     "title" := get "title" (VStr "Untitled Task") task_data;
     "description" := get "description" (VStr "") task_data;
     "priority" := get "priority" (VNum 5) task_data;
     "estimated_duration" := get "estimated_duration" (VNum 60) task_data;
     "deadline" := get "deadline" (VTime (now + 7 * DAY)) task_data;
     "scheduled_time" := get "scheduled_time" (VTime now) task_data;
     "status" := VStr "pending";
     "created_at" := VTime now;
     "tags" := get "tags" (VTags []) task_data ]}.

Definition create_task (now : datetime) (task_id : string) (task_data : pydict)
    : M create_result :=
  let task := new_task now task_id task_data in
  score ← lift (calculate_priority_score now task);
  let task := <["priority_score" := VNum score]> task in
  conflicts ← reads (detect_conflicts now task);
  _ ← modify (fun self => set_tasks (PyDict.setitem task_id task (tasks self)) self);
  match conflicts with
  | [] =>
      mret {| cr_task := task; cr_conflicts := conflicts;
              cr_has_conflicts := false; cr_suggestion := None |}
  | _ :: _ =>
      s ← reads (suggest_optimal_time now task);
      mret {| cr_task := task; cr_conflicts := conflicts;
              cr_has_conflicts := true; cr_suggestion := Some s |}
  end.

(** *** Read / list *)

Record filters : Type := mkFilters {
  f_status : option string;
  f_priority_min : option Z
}.

Record summary : Type := mkSummary {
  high_priority : nat;
  medium_priority : nat;
  low_priority : nat;
  pending : nat;
  in_progress : nat;
  completed : nat
}.

Record schedule_result : Type := mkSchedule {
  total_tasks : nat;
  sr_tasks : list pydict;
  sr_summary : summary
}.

(** A list comprehension [[t for t in l if p(t)]] whose test may raise. *)
Fixpoint filterM {A : Type} (p : A -> res bool) (l : list A) : res (list A) :=
  match l with
  | [] => Ok []
  | x :: l' =>
      b ← p x;
      r ← filterM p l';
      mret (if b : bool then x :: r else r)
  end.

Fixpoint mapM {A B : Type} (f : A -> res B) (l : list A) : res (list B) :=
  match l with
  | [] => Ok []
  | x :: l' => y ← f x; r ← mapM f l'; mret (y :: r)
  end.

(** [t['status'] == s] *)
Definition status_is (s : string) (t : pydict) : res bool :=
  v ← getitem "status" t; mret (eq_str v s).

(** [t['priority']] as a number *)
Definition priority_of (t : pydict) : res Q :=
  v ← getitem "priority" t; num_of v.

(** [x['priority_score']], the sort key, as a number.  [create_task] and
    [update_task] write a number there; a key of another type can only be
    left behind by an update that raises.  The keys are compared with each
    other, which Python refuses between a number and a key of another type;
    the listing of a store with such a key is taken to raise. *)
Definition score_of (t : pydict) : res Q :=
  v ← getitem "priority_score" t; num_of v.

(** Python truthiness of [filters.get('status')] and
    [filters.get('priority_min')]: a missing entry, [None], the empty
    string and zero all count as no filter. *)
Definition truthy_status (f : filters) : option string :=
  match f_status f with
  | Some s => if bool_decide (s = "") then None else Some s
  | None => None
  end.

Definition truthy_priority_min (f : filters) : option Z :=
  match f_priority_min f with
  | Some n => if n =? 0 then None else Some n
  | None => None
  end.

(** [l.sort(key=..., reverse=True)] on a list paired with its keys: the
    stable sort by descending key (elements with equal keys keep their
    order), written as an insertion sort. *)
Fixpoint insert_desc {A : Type} (x : Q * A) (l : list (Q * A)) : list (Q * A) :=
  match l with
  | [] => [x]
  | y :: l' =>
      if Qle_bool (fst y) (fst x) then x :: y :: l' else y :: insert_desc x l'
  end.

Fixpoint sort_desc {A : Type} (l : list (Q * A)) : list (Q * A) :=
  match l with
  | [] => []
  | x :: l' => insert_desc x (sort_desc l')
  end.

Definition apply_filters (fs : option filters) (tasks_list : list pydict)
    : res (list pydict) :=
  match fs with
  | None => Ok tasks_list
  | Some f =>
      l1 ← match truthy_status f with
           | Some s => filterM (status_is s) tasks_list
           | None => Ok tasks_list
           end;
      match truthy_priority_min f with
      | Some n =>
          filterM (fun t => p ← priority_of t; mret (Qle_bool (inject_Z n) p)) l1
      | None => Ok l1
      end
  end.

Definition count (p : pydict -> res bool) (l : list pydict) : res nat :=
  length <$> filterM p l.

Definition summarize (tasks_list : list pydict) : res summary :=
  high ← count (fun t => p ← priority_of t; mret (Qle_bool 8 p)) tasks_list;
  medium ← count (fun t => p ← priority_of t;
                           mret (Qle_bool 4 p && negb (Qle_bool 8 p))) tasks_list;
  low ← count (fun t => p ← priority_of t; mret (negb (Qle_bool 4 p))) tasks_list;
  n_pending ← count (status_is "pending") tasks_list;
  n_in_progress ← count (status_is "in_progress") tasks_list;
  n_completed ← count (status_is "completed") tasks_list;
  mret {| high_priority := high; medium_priority := medium;
          low_priority := low; pending := n_pending;
          in_progress := n_in_progress; completed := n_completed |}.

Definition get_schedule (fs : option filters) : M schedule_result :=
  tasks_list ← gets (fun self => PyDict.values (tasks self));
  tasks_list ← lift (apply_filters fs tasks_list);
  keyed ← lift (mapM (fun x => k ← score_of x; mret (k, x)) tasks_list);
  let tasks_list := map snd (sort_desc keyed) in
  s ← lift (summarize tasks_list);
  mret {| total_tasks := length tasks_list; sr_tasks := tasks_list;
          sr_summary := s |}.

(** *** Update and delete *)

(** The two shapes of the dictionaries that [update_task] and
    [delete_task] return: [{'error': 'Task not found'}] or the task. *)
Inductive reply : Type :=
| NotFound
| Found (task : pydict).

Definition update_task (now : datetime) (task_id : string) (updates : pydict)
    : M reply :=
  found ← gets (fun self => PyDict.lookup task_id (tasks self));
  match found with
  | None => mret NotFound
  | Some task =>
      let store (t : pydict) :=
        modify (fun self => set_tasks (PyDict.setitem task_id t (tasks self)) self) in
      let task := update updates task in
      _ ← store task;
      score ← lift (calculate_priority_score now task);
      let task := <["priority_score" := VNum score]> task in
      let task := <["updated_at" := VTime now]> task in
      _ ← store task;
      mret (Found task)
  end.

Definition delete_task (task_id : string) : M reply :=
  found ← gets (fun self => PyDict.lookup task_id (tasks self));
  match found with
  | None => mret NotFound
  | Some deleted_task =>
      _ ← modify (fun self => set_tasks (PyDict.remove task_id (tasks self)) self);
      mret (Found deleted_task)
  end.

(** ** Sample requests and stores

    Two overlapping one-hour tasks, created at time 0 on a fresh scheduler:
    task A at 00:00 and task B at 00:30. *)

Definition data_A : pydict :=
  {[ "title" := VStr "A"; "priority" := VNum 5;
     "scheduled_time" := VTime 0; "estimated_duration" := VNum 60 ]}.

Definition data_B : pydict :=
  {[ "title" := VStr "B"; "priority" := VNum 7;
     "scheduled_time" := VTime (30 * MINUTE); "estimated_duration" := VNum 60 ]}.

Definition store_A : TaskScheduler := snd (create_task 0 "a1b2c3d4" data_A init).

Definition task_A : pydict :=
  <["priority_score" := VNum (1350 # 100)]> (new_task 0 "a1b2c3d4" data_A).

Definition task_B : pydict :=
  <["priority_score" := VNum (1750 # 100)]> (new_task 0 "b5c6d7e8" data_B).

Definition store_AB : TaskScheduler :=
  snd (create_task 0 "b5c6d7e8" data_B store_A).

(** Task A after an update made one day after its creation. *)
Definition task_A_next_day (merged : pydict) : pydict :=
  <["updated_at" := VTime DAY]> (<["priority_score" := VNum (1450 # 100)]> merged).

Definition free_slot (t : datetime) : suggestion :=
  {| suggested_time := t; reason := "No conflicts detected"; confidence := 95 |}.

(** A request that asks for a finished task, and an update that names the
    field [id]. *)
Definition data_done : pydict :=
  {[ "title" := VStr "done"; "status" := VStr "completed" ]}.

Definition task_done : pydict :=
  <["priority_score" := VNum (1350 # 100)]> (new_task 0 "c0ffee00" data_done).

Definition updates_id : pydict := {[ "id" := VStr "ffffffff" ]}.

(** A task of negative priority, alone in a store, and the filters that
    the route [GET /tasks] passes when the query names no [priority_min]. *)
Definition data_low : pydict :=
  {[ "title" := VStr "low"; "priority" := VNum (-1) ]}.

Definition task_low : pydict :=
  <["priority_score" := VNum (150 # 100)]> (new_task 0 "0badc0de" data_low).

Definition store_low : TaskScheduler :=
  snd (create_task 0 "0badc0de" data_low init).

Definition one_low_pending : summary :=
  {| high_priority := 0; medium_priority := 0; low_priority := 1;
     pending := 1; in_progress := 0; completed := 0 |}.

Definition one_medium_pending : summary :=
  {| high_priority := 0; medium_priority := 1; low_priority := 0;
     pending := 1; in_progress := 0; completed := 0 |}.

Definition filters_empty_status : filters :=
  {| f_status := Some ""%string; f_priority_min := None |}.

Definition filters_min_0 : filters :=
  {| f_status := None; f_priority_min := Some 0 |}.

Definition filters_pending_5 : filters :=
  {| f_status := Some "pending"%string; f_priority_min := Some 5 |}.

(** ** Notions used to state the properties *)

(** The overlap test of [detect_conflicts] between the candidate's
    interval from [s] to [e] and a stored entry. *)
Definition conflicts_with (now s e : datetime) (entry : string * pydict) : bool :=
  negb (is_completed (snd entry)) &&
  match task_interval now (snd entry) with
  | Ok (s', e') => (s <? e') && (e >? s')
  | Raise _ => false
  end.

(** The numeric fields of a stored task, and the tests of [get_schedule]
    on a task that has them. *)
Definition priority (task : pydict) : Q :=
  match task !! "priority" with Some (VNum p) => p | _ => 0 end.

Definition score (task : pydict) : Q :=
  match task !! "priority_score" with Some (VNum q) => q | _ => 0 end.

Definition has_status (s : string) (task : pydict) : bool :=
  eq_str (get_none "status" task) s.

(** The tasks that the filters let through: a status filter that is absent
    or empty and a minimum that is absent or zero select everything. *)
Definition selects (fs : option filters) (task : pydict) : bool :=
  match fs with
  | None => true
  | Some f =>
      match truthy_status f with
      | Some s => has_status s task
      | None => true
      end &&
      match truthy_priority_min f with
      | Some n => Qle_bool (inject_Z n) (priority task)
      | None => true
      end
  end.

(** A stored task that [get_schedule] can list: it has a status, a numeric
    priority and a numeric score. *)
Definition listable (task : pydict) : Prop :=
  (exists v, task !! "status" = Some v)
  /\ (exists p, task !! "priority" = Some (VNum p))
  /\ (exists q, task !! "priority_score" = Some (VNum q)).

(** The counts of the summary over a list of listable tasks: priority at
    least 8, from 4 up to but not including 8, under 4, and the three
    statuses. *)
Definition summary_of (l : list pydict) : summary :=
  {| high_priority := length (List.filter (fun t => Qle_bool 8 (priority t)) l);
     medium_priority :=
       length (List.filter (fun t => Qle_bool 4 (priority t)
                                     && negb (Qle_bool 8 (priority t))) l);
     low_priority :=
       length (List.filter (fun t => negb (Qle_bool 4 (priority t))) l);
     pending := length (List.filter (has_status "pending") l);
     in_progress := length (List.filter (has_status "in_progress") l);
     completed := length (List.filter (has_status "completed") l) |}.

Definition by_score_desc (a b : pydict) : Prop := (score b <= score a)%Q.

(** The same order on elements paired with their sort key. *)
Definition key_desc {A : Type} (x y : Q * A) : Prop := (fst y <= fst x)%Q.





Definition not_completed (task : pydict) : Prop :=
  task !! "status" <> Some (VStr "completed").

(** The interval that the design document gives a task, read off its
    fields: from [scheduled_time] (by default the current time) to
    [scheduled_time] plus [estimated_duration] minutes (by default 60).
    [occupies now task s e] says that the scheduled time of the task is ISO
    text without UTC offset for the reading [s], that its duration is a
    whole number of minutes, that [e] is [s] plus that many minutes, and
    that both lie in the calendar. *)
Definition in_calendar (t : datetime) : Prop := 0 <= t <= MAX_DATETIME.

Definition whole_minutes (v : value) (minutes : Z) : Prop :=
  exists q : Q, v = VNum q /\ (q == inject_Z minutes)%Q.

Definition occupies (now : datetime) (task : pydict) (s e : datetime) : Prop :=
  exists minutes : Z,
    get "scheduled_time" (VTime now) task = VTime s
    /\ whole_minutes (get "estimated_duration" (VNum 60) task) minutes
    /\ e = s + minutes * MINUTE
    /\ in_calendar s /\ in_calendar e.

(** A task whose interval [detect_conflicts] cannot compute: the scheduled
    time is not ISO text, or the duration is not a number. *)
Definition is_date (v : value) : bool :=
  match v with
  | VTime _ | VTimeTz _ _ => true
  | _ => false
  end.

Definition is_number (v : value) : bool :=
  match v with
  | VNum _ => true
  | _ => false
  end.


(** Whether the scheduled time of a task carries a UTC offset. *)
Definition has_offset (now : datetime) (task : pydict) : bool :=
  match get "scheduled_time" (VTime now) task with
  | VTimeTz _ _ => true
  | _ => false
  end.

Definition no_conflict_near_deadline (t : datetime) : suggestion :=
  {| suggested_time := t; reason := "Best available slot near deadline";
     confidence := 60 |}.

(** ** Notions used to state further properties *)

(** The outcome of the conflict check that [suggest_optimal_time] makes for
    the slot starting at [t]. *)
Definition slot_busy (now : datetime) (task : pydict) (self : TaskScheduler)
    (t : datetime) : Prop :=
  exists c l,
    detect_conflicts now (<["scheduled_time" := VTime t]> task) self = Ok (c :: l).

Definition slot_free (now : datetime) (task : pydict) (self : TaskScheduler)
    (t : datetime) : Prop :=
  detect_conflicts now (<["scheduled_time" := VTime t]> task) self = Ok [].

(** The fields of a task that [create_task] builds, and those among them
    that it takes from the request. *)
Definition created_fields : list string :=
  ["id"; "title"; "description"; "priority"; "estimated_duration"; "deadline";
   "scheduled_time"; "status"; "created_at"; "tags"; "priority_score"]%string.

Definition request_fields : list string :=
  ["title"; "description"; "priority"; "estimated_duration"; "deadline";
   "scheduled_time"; "tags"]%string.

(** A request whose deadline is not ISO text. *)
Definition data_bad_deadline : pydict :=
  {[ "title" := VStr "C"; "deadline" := VStr "tomorrow" ]}.

(** Updates with a field that is not ISO text. *)
Definition updates_bad_deadline : pydict := {[ "deadline" := VStr "tomorrow" ]}.
Definition updates_bad_schedule : pydict := {[ "scheduled_time" := VStr "noon" ]}.

Definition updates_priority_9 : pydict := {[ "priority" := VNum 9 ]}.
Definition updates_in_progress : pydict := {[ "status" := VStr "in_progress" ]}.
Definition updates_completed : pydict := {[ "status" := VStr "completed" ]}.

(** The store with task A after task A has been marked as completed. *)
Definition task_A_completed : pydict :=
  <["updated_at" := VTime 0]> (update updates_completed task_A).

Definition store_A_completed : TaskScheduler :=
  snd (update_task 0 "a1b2c3d4" updates_completed store_A).

(** The store with task A after an update has overwritten the deadline of
    task A with text that is not ISO (the update raises and leaves the
    merged task behind). *)
Definition store_A_bad_deadline : TaskScheduler :=
  snd (update_task DAY "a1b2c3d4" updates_bad_deadline store_A).



(** A third task, created after A and B, with the score of task A. *)
Definition data_C : pydict :=
  {[ "title" := VStr "C"; "priority" := VNum 5;
     "scheduled_time" := VTime (3 * HOUR); "estimated_duration" := VNum 60 ]}.

Definition task_C : pydict :=
  <["priority_score" := VNum (1350 # 100)]> (new_task 0 "d00dfeed" data_C).

Definition store_ABC : TaskScheduler :=
  snd (create_task 0 "d00dfeed" data_C store_AB).

Definition three_medium_pending : summary :=
  {| high_priority := 0; medium_priority := 3; low_priority := 0;
     pending := 3; in_progress := 0; completed := 0 |}.

(** A request for a task that starts with the calendar and ends half an
    hour before the calendar does: it fits where it is, and nowhere
    later. *)
Definition data_long : pydict :=
  {[ "title" := VStr "L"; "scheduled_time" := VTime 0;
     "estimated_duration" := VNum (inject_Z (3652059 * 1440 - 30)) ]}.

Definition task_long : pydict :=
  <["priority_score" := VNum (1500 # 100)]> (new_task 0 "b5c6d7e8" data_long).

(** A request whose scheduled time carries a UTC offset of two hours, and
    the store that holds nothing but the task created from it. *)
Definition data_offset : pydict :=
  {[ "title" := VStr "Z"; "scheduled_time" := VTimeTz (3 * HOUR) (2 * HOUR) ]}.

Definition task_offset : pydict :=
  <["priority_score" := VNum (1350 # 100)]> (new_task 0 "0ff5e7aa" data_offset).

Definition store_offset : TaskScheduler :=
  snd (create_task 0 "0ff5e7aa" data_offset init).

(** ** The routes

    The Flask handlers around the scheduler object.  A handler returns a
    status code and a body; [jsonify] is not modelled, the body is the
    value that is serialised.  The JSON body of a request is a dictionary.
    Every handler catches the exceptions of the method it calls and answers
    500 with the error text. *)

Inductive body (A : Type) : Type :=
| Json (a : A)
| TaskNotFound
| Failed (e : exn).

Arguments Json {A} a.
Arguments TaskNotFound {A}.
Arguments Failed {A} e.

Definition response (A : Type) : Type := (Z * body A)%type.

Definition handler (A : Type) : Type :=
  TaskScheduler -> response A * TaskScheduler.

Module Routes.

(** [try: ... return jsonify(result), code / except Exception: ... 500] *)
Definition guarded {A : Type} (code : Z) (m : M A) : handler A :=
  fun self =>
    match m self with
    | (Ok a, self') => ((code, Json a), self')
    | (Raise e, self') => ((500, Failed e), self')
    end.

(** The same for the handlers that turn [{'error': ...}] into 404. *)
Definition guarded_reply (m : M reply) : handler pydict :=
  fun self =>
    match m self with
    | (Ok (Found task), self') => ((200, Json task), self')
    | (Ok NotFound, self') => ((404, TaskNotFound), self')
    | (Raise e, self') => ((500, Failed e), self')
    end.

(** [POST /tasks] *)
Definition create_task (now : datetime) (task_id : string) (data : pydict)
    : handler create_result :=
  guarded 201 (create_task now task_id data).

(** [GET /tasks].  [status] is the query parameter of that name, if any;
    [priority_min] is the query parameter of that name, if any, as [int]
    reads its text: [Some n] for the text of the integer [n], [None] for
    text that [int] rejects. *)
Definition list_tasks (status : option string)
    (priority_min : option (option Z)) : handler schedule_result :=
  fun self =>
    match priority_min with
    | Some None => ((500, Failed ValueError), self)
    | Some (Some n) =>
        guarded 200
          (get_schedule (Some {| f_status := status; f_priority_min := Some n |}))
          self
    | None =>
        guarded 200
          (get_schedule (Some {| f_status := status; f_priority_min := Some 0 |}))
          self
    end.

(** [GET /tasks/<task_id>] *)
Definition get_task (task_id : string) : handler pydict :=
  fun self =>
    match PyDict.lookup task_id (tasks self) with
    | None => ((404, TaskNotFound), self)
    | Some task => ((200, Json task), self)
    end.

(** [PUT /tasks/<task_id>] *)
Definition update_task (now : datetime) (task_id : string) (data : pydict)
    : handler pydict :=
  guarded_reply (update_task now task_id data).

(** [DELETE /tasks/<task_id>] *)
Definition delete_task (task_id : string) : handler pydict :=
  guarded_reply (delete_task task_id).

(** [GET /schedule] *)
Definition get_schedule : handler schedule_result :=
  guarded 200 (get_schedule None).

(** [POST /suggest] *)
Definition suggest_time (now : datetime) (data : pydict) : handler suggestion :=
  guarded 200 (reads (suggest_optimal_time now data)).

End Routes.

(** A request to the service, with the clock reading and the id drawn
    while it is served, and the scheduler it leaves behind. *)
Inductive request : Type :=
| PostTask (now : datetime) (task_id : string) (data : pydict)
| GetTasks (status : option string) (priority_min : option (option Z))
| GetTask (task_id : string)
| PutTask (now : datetime) (task_id : string) (data : pydict)
| DeleteTask (task_id : string)
| GetSchedule
| PostSuggest (now : datetime) (data : pydict).

Definition serve (self : TaskScheduler) (rq : request) : TaskScheduler :=
  match rq with
  | PostTask now task_id data => snd (Routes.create_task now task_id data self)
  | GetTasks status priority_min => snd (Routes.list_tasks status priority_min self)
  | GetTask task_id => snd (Routes.get_task task_id self)
  | PutTask now task_id data => snd (Routes.update_task now task_id data self)
  | DeleteTask task_id => snd (Routes.delete_task task_id self)
  | GetSchedule => snd (Routes.get_schedule self)
  | PostSuggest now data => snd (Routes.suggest_time now data self)
  end.

(** The scheduler of the service after a sequence of requests. *)
Definition serve_all (rqs : list request) : TaskScheduler :=
  fold_left serve rqs init.

(** The tasks of a list whose score equals [q], in the order of the list. *)
Definition with_score (q : Q) (l : list pydict) : list pydict :=
  List.filter (fun t => Qeq_bool (score t) q) l.

(** Every stored task has all the fields that [create_task] gives a task. *)
Definition stored_complete (self : TaskScheduler) : Prop :=
  forall id t, In (id, t) (tasks self) ->
    forall k, In k created_fields -> is_Some (t !! k).

(** A request that cannot change the [id] field of a stored task: every
    request but a [PUT] whose body names the field [id]. *)
Definition keeps_ids (rq : request) : Prop :=
  match rq with
  | PutTask _ _ data => data !! "id" = None
  | _ => True
  end.

(** The [id] field of every stored task is the key the task is filed
    under. *)
Definition ids_match (self : TaskScheduler) : Prop :=
  forall id t, In (id, t) (tasks self) -> t !! "id" = Some (VStr id).

(** The scheduler without its completed tasks. *)
Definition without_completed (self : TaskScheduler) : TaskScheduler :=
  set_tasks (List.filter (fun it => negb (is_completed (snd it))) (tasks self))
    self.

(** * Properties *)

Ltac unfold_M :=
  unfold mbind, M_bind, mret, M_ret, lift, gets, modify, reads; simpl.

(** Closed equations between results of the engine are checked by
    evaluation, without writing the evaluated dictionaries into the goal. *)
Ltac by_evaluation :=
  lazymatch goal with
  | |- @eq ?T ?a ?b => vm_cast_no_check (@eq_refl T b)
  end.

(** ** Facts about the insertion-ordered dictionary *)

Section DictFacts.
Context {V : Type}.
Implicit Types (d : PyDict.t V) (k : string) (v : V).

Lemma lookup_In k v d : PyDict.lookup k d = Some v -> In (k, v) d.
Proof.
  induction d as [|[k' v'] d IH]; simpl; [discriminate|].
  destruct (decide (k = k')) as [->|Hne]; intros H.
  - left. congruence.
  - right. auto.
Qed.

Lemma lookup_None_keys k d : PyDict.lookup k d = None <-> ~ In k (PyDict.keys d).
Proof.
  induction d as [|[k' v'] d IH]; simpl.
  - tauto.
  - destruct (decide (k = k')) as [->|Hne]; split; intros H.
    + discriminate.
    + exfalso. apply H. now left.
    + intros [Heq|Hin]; [congruence|]. now apply IH in H.
    + apply IH. intros Hin. apply H. now right.
Qed.

Lemma In_lookup k v d : PyDict.wf d -> In (k, v) d -> PyDict.lookup k d = Some v.
Proof.
  unfold PyDict.wf.
  induction d as [|[k' v'] d IH]; simpl; [tauto|].
  intros Hnd [Heq|Hin]; inversion Hnd as [|? ? Hnotin Hnd']; subst.
  - inversion Heq; subst. now rewrite decide_True.
  - destruct (decide (k = k')) as [->|Hne]; [|auto].
    exfalso. apply Hnotin. change k' with (fst (k', v)). now apply in_map.
Qed.

Lemma keys_setitem_in k v d :
  In k (PyDict.keys d) -> PyDict.keys (PyDict.setitem k v d) = PyDict.keys d.
Proof.
  induction d as [|[k' v'] d IH]; simpl; [tauto|].
  destruct (decide (k = k')) as [->|Hne]; simpl; [reflexivity|].
  intros [Heq|Hin]; [congruence|]. f_equal. auto.
Qed.

Lemma keys_setitem_notin k v d :
  ~ In k (PyDict.keys d) -> PyDict.keys (PyDict.setitem k v d) = PyDict.keys d ++ [k].
Proof.
  induction d as [|[k' v'] d IH]; simpl; [reflexivity|].
  destruct (decide (k = k')) as [->|Hne]; simpl; intros H.
  - exfalso. apply H. now left.
  - f_equal. apply IH. intros Hin. apply H. now right.
Qed.

Lemma lookup_setitem_eq k v d : PyDict.lookup k (PyDict.setitem k v d) = Some v.
Proof.
  induction d as [|[k' v'] d IH]; simpl.
  - now rewrite decide_True.
  - destruct (decide (k = k')) as [->|Hne]; simpl.
    + now rewrite decide_True.
    + now rewrite decide_False.
Qed.

Lemma lookup_setitem_ne k k' v d :
  k <> k' -> PyDict.lookup k' (PyDict.setitem k v d) = PyDict.lookup k' d.
Proof.
  intros Hne. induction d as [|[k0 v0] d IH]; simpl.
  - rewrite decide_False; [reflexivity|congruence].
  - destruct (decide (k = k0)) as [->|Hne0]; simpl.
    + rewrite !decide_False; [reflexivity|congruence|congruence].
    + destruct (decide (k' = k0)); [reflexivity|apply IH].
Qed.

Lemma wf_setitem k v d : PyDict.wf d -> PyDict.wf (PyDict.setitem k v d).
Proof.
  unfold PyDict.wf. intros Hwf.
  destruct (in_dec String.string_dec k (PyDict.keys d)) as [Hin|Hnotin].
  - now rewrite keys_setitem_in.
  - rewrite keys_setitem_notin by assumption.
    apply List.NoDup_app; [assumption| |].
    + constructor; [simpl; tauto|constructor].
    + intros x Hx [<-|[]]. contradiction.
Qed.

Lemma In_remove k k' v d : In (k', v) (PyDict.remove k d) -> In (k', v) d.
Proof.
  induction d as [|[k0 v0] d IH]; simpl; [tauto|].
  destruct (decide (k = k0)) as [->|Hne]; simpl; [tauto|].
  intros [Heq|Hin]; [now left|right; auto].
Qed.

Lemma keys_remove_incl k d x :
  In x (PyDict.keys (PyDict.remove k d)) -> In x (PyDict.keys d).
Proof.
  unfold PyDict.keys. intros Hin. apply in_map_iff in Hin as [[k' v] [<- Hin]].
  apply in_map_iff. exists (k', v). split; [reflexivity|].
  eapply In_remove; eassumption.
Qed.

Lemma wf_remove k d : PyDict.wf d -> PyDict.wf (PyDict.remove k d).
Proof.
  unfold PyDict.wf.
  induction d as [|[k0 v0] d IH]; simpl; [auto|].
  intros Hnd. inversion Hnd as [|? ? Hnotin Hnd']; subst.
  destruct (decide (k = k0)) as [->|Hne]; simpl; [assumption|].
  constructor; [|auto].
  intros Hin. apply Hnotin. eapply keys_remove_incl; eassumption.
Qed.

Lemma lookup_remove_eq k d : PyDict.wf d -> PyDict.lookup k (PyDict.remove k d) = None.
Proof.
  unfold PyDict.wf.
  induction d as [|[k0 v0] d IH]; simpl; [reflexivity|].
  intros Hnd. inversion Hnd as [|? ? Hnotin Hnd']; subst.
  destruct (decide (k = k0)) as [->|Hne]; simpl.
  - now apply lookup_None_keys.
  - rewrite decide_False by assumption. auto.
Qed.

Lemma lookup_remove_ne k k' d :
  k <> k' -> PyDict.lookup k' (PyDict.remove k d) = PyDict.lookup k' d.
Proof.
  intros Hne. induction d as [|[k0 v0] d IH]; simpl; [reflexivity|].
  destruct (decide (k = k0)) as [->|Hne0]; simpl.
  - rewrite decide_False; [reflexivity|congruence].
  - destruct (decide (k' = k0)); [reflexivity|apply IH].
Qed.

Lemma filter_other_keys k d :
  ~ In k (PyDict.keys d) ->
  List.filter (fun e => negb (bool_decide (fst e = k))) d = d.
Proof.
  induction d as [|[k0 v0] d IH]; simpl; [reflexivity|].
  intros Hnotin.
  rewrite bool_decide_false by (intros ->; apply Hnotin; now left). simpl.
  f_equal. apply IH. intros Hin. apply Hnotin. now right.
Qed.

(** Removing a key keeps the other entries in their order. *)
Lemma remove_filter k d :
  PyDict.wf d ->
  PyDict.remove k d = List.filter (fun e => negb (bool_decide (fst e = k))) d.
Proof.
  unfold PyDict.wf.
  induction d as [|[k0 v0] d IH]; simpl; [reflexivity|].
  intros Hnd. inversion Hnd as [|? ? Hnotin Hnd']; subst.
  destruct (decide (k = k0)) as [->|Hne]; simpl.
  - rewrite bool_decide_true by reflexivity. simpl.
    symmetry. now apply filter_other_keys.
  - rewrite bool_decide_false by congruence. simpl. f_equal. auto.
Qed.
End DictFacts.

(** ** Delete *)

Lemma delete_task_eq task_id self :
  delete_task task_id self =
  match PyDict.lookup task_id (tasks self) with
  | None => (Ok NotFound, self)
  | Some t => (Ok (Found t), set_tasks (PyDict.remove task_id (tasks self)) self)
  end.
Proof.
  unfold delete_task. unfold_M.
  destruct (PyDict.lookup task_id (tasks self)); reflexivity.
Qed.

(** C8. [delete_task] answers [NotFound] exactly when the id is not a key of
    the store, and then leaves the scheduler as it was; for a stored id it
    returns the stored task and removes that entry, every other entry
    keeping its task and its position. *)
Theorem delete_task_spec (self : TaskScheduler) (task_id : string)
    (Hwf : PyDict.wf (tasks self)) :
  (fst (delete_task task_id self) = Ok NotFound
     <-> PyDict.lookup task_id (tasks self) = None)
  /\ (PyDict.lookup task_id (tasks self) = None ->
        delete_task task_id self = (Ok NotFound, self))
  /\ (forall t, PyDict.lookup task_id (tasks self) = Some t ->
        exists self',
          delete_task task_id self = (Ok (Found t), self')
          /\ PyDict.lookup task_id (tasks self') = None
          /\ (forall id', id' <> task_id ->
                PyDict.lookup id' (tasks self') = PyDict.lookup id' (tasks self))
          /\ tasks self' =
               List.filter (fun e => negb (bool_decide (fst e = task_id))) (tasks self)
          /\ PyDict.wf (tasks self')
          /\ schedule self' = schedule self).
Proof.
  rewrite delete_task_eq.
  destruct (PyDict.lookup task_id (tasks self)) as [t|] eqn:Hl.
  - split; [split; simpl; intros H; discriminate|].
    split; [discriminate|].
    intros t' [= <-]. eexists. split; [reflexivity|]. simpl.
    split; [now apply lookup_remove_eq|].
    split; [intros id' Hne; apply lookup_remove_ne; congruence|].
    split; [now apply remove_filter|].
    split; [now apply wf_remove|reflexivity].
  - split; [split; reflexivity|].
    split; [reflexivity|discriminate].
Qed.

Lemma store_A_tasks : tasks store_A = [("a1b2c3d4"%string, task_A)].
Proof. by_evaluation. Qed.

Lemma store_A_lookup : PyDict.lookup "a1b2c3d4" (tasks store_A) = Some task_A.
Proof. by_evaluation. Qed.

Lemma store_A_wf : PyDict.wf (tasks store_A).
Proof.
  rewrite store_A_tasks. unfold PyDict.wf. simpl.
  constructor; [simpl; tauto|constructor].
Defined.

Lemma delete_task_spec_witness :
  PyDict.wf (tasks store_A)
  /\ exists self',
       delete_task "a1b2c3d4" store_A = (Ok (Found task_A), self')
       /\ PyDict.lookup "a1b2c3d4" (tasks self') = None.
Proof.
  split; [exact store_A_wf|].
  destruct (delete_task_spec store_A "a1b2c3d4" store_A_wf) as (_ & _ & H).
  destruct (H task_A store_A_lookup) as (self' & Hd & Hl & _).
  exists self'. split; assumption.
Defined.

(** ** Read / list leaves the store alone *)

(** C10. [get_schedule] is read-only: whatever the filters, and whether it
    returns or raises, the scheduler after the call is the scheduler before
    it (the same ids in the same order, holding the same tasks); filtering
    and sorting work on the list copied out of the store. *)
Theorem get_schedule_read_only (fs : option filters) (self : TaskScheduler) :
  snd (get_schedule fs self) = self.
Proof.
  unfold get_schedule. unfold_M.
  destruct (apply_filters fs _); simpl; [|reflexivity].
  destruct (mapM _ _); simpl; [|reflexivity].
  destruct (summarize _); reflexivity.
Qed.

(** ** Slot suggestion *)

Lemma HOUR_val : HOUR = 3600000000.
Proof. reflexivity. Qed.

Lemma slots_before_lt deadline current :
  current < deadline ->
  slots_before deadline current = S (slots_before deadline (current + HOUR)).
Proof.
  intros Hlt. unfold slots_before. rewrite HOUR_val.
  replace (deadline - current + 3600000000 - 1)
    with ((deadline - (current + 3600000000) + 3600000000 - 1) + 1 * 3600000000)
    by lia.
  rewrite Z.div_add by lia.
  rewrite Z2Nat.inj_add; [|apply Z.div_pos; lia|lia].
  rewrite Nat.add_comm. reflexivity.
Qed.

Lemma slots_before_ge deadline current :
  deadline <= current -> slots_before deadline current = O.
Proof.
  intros Hge. unfold slots_before. rewrite HOUR_val.
  assert ((deadline - current + 3600000000 - 1) / 3600000000 < 1)
    by (apply Z.div_lt_upper_bound; lia).
  lia.
Qed.

(** The fuel [slots_before] is exactly what the loop needs: the function
    satisfies the equation of the [while] loop, and the branch for spent
    fuel is taken only when the loop condition is false. *)
Lemma suggest_loop_unfold now deadline task self checks current :
  suggest_loop now deadline task self (slots_before deadline current) checks current =
  if current <? deadline then
    conflicts ← detect_conflicts now (<["scheduled_time" := VTime current]> task) self;
    match conflicts with
    | [] => Ok (S checks, {| suggested_time := current;
                             reason := "No conflicts detected";
                             confidence := 95 |})
    | _ :: _ =>
        next ← datetime_add (naive current) HOUR;
        suggest_loop now deadline task self
          (slots_before deadline (current + HOUR)) (S checks) (wall next)
    end
  else Ok (checks, no_conflict_near_deadline current).
Proof.
  destruct (current <? deadline) eqn:Hlt.
  - apply Z.ltb_lt in Hlt. rewrite slots_before_lt by assumption.
    simpl. apply Z.ltb_lt in Hlt. rewrite Hlt. reflexivity.
  - apply Z.ltb_ge in Hlt. rewrite slots_before_ge by assumption. reflexivity.
Qed.



(** ** Durations *)

Lemma round_half_even_comp (x y : Q) :
  x == y -> round_half_even x = round_half_even y.
Proof.
  intros Hxy. unfold round_half_even.
  rewrite (Qfloor_comp x y Hxy).
  assert (Hc : (x - inject_Z (Qfloor y) ?= 1 # 2)%Q
               = (y - inject_Z (Qfloor y) ?= 1 # 2)%Q)
    by (apply Qcompare_comp; [now rewrite Hxy|reflexivity]).
  now rewrite Hc.
Qed.

Lemma round_half_even_inject_Z (z : Z) : round_half_even (inject_Z z) = z.
Proof.
  unfold round_half_even. rewrite Qfloor_Z.
  assert (H : (inject_Z z - inject_Z z ?= 1 # 2)%Q = (0 ?= 1 # 2)%Q)
    by (apply Qcompare_comp; [ring|reflexivity]).
  now rewrite H.
Qed.

(** A whole number of minutes is converted to microseconds exactly. *)
Lemma timedelta_whole_minutes (v : value) (minutes : Z) :
  whole_minutes v minutes ->
  MIN_TIMEDELTA <= minutes * MINUTE <= MAX_TIMEDELTA ->
  timedelta_minutes v = Ok (minutes * MINUTE).
Proof.
  intros (q & -> & Hq) [Hlo Hhi]. unfold timedelta_minutes. simpl.
  rewrite (round_half_even_comp (q * inject_Z MINUTE)
             (inject_Z (minutes * MINUTE)))
    by (rewrite Hq, inject_Z_mult; reflexivity).
  rewrite round_half_even_inject_Z.
  apply Z.leb_le in Hlo, Hhi. now rewrite Hlo, Hhi.
Qed.

Lemma calendar_in_timedelta_range (s e : datetime) :
  in_calendar s -> in_calendar e ->
  MIN_TIMEDELTA <= e - s <= MAX_TIMEDELTA.
Proof.
  unfold in_calendar, MAX_DATETIME, MIN_TIMEDELTA, MAX_TIMEDELTA, DAY, HOUR, MINUTE.
  lia.
Qed.

(** ** Conflict detection *)

Lemma is_completed_true task :
  is_completed task = true <-> task !! "status" = Some (VStr "completed").
Proof.
  unfold is_completed, get_none, get, eq_str.
  destruct (task !! "status") as [v|]; simpl.
  - destruct v; try (split; [discriminate|intros [=]]).
    rewrite bool_decide_eq_true. split; [intros ->; reflexivity|intros [=]; assumption].
  - split; discriminate.
Qed.

Lemma is_completed_false task :
  is_completed task = false <-> not_completed task.
Proof.
  unfold not_completed. rewrite <- is_completed_true.
  destruct (is_completed task); split; congruence.
Qed.

(** The end of a task is naive or aware as its start is. *)
Lemma datetime_add_offset (a b : pydatetime) (td : timedelta) :
  datetime_add a td = Ok b -> utcoffset b = utcoffset a /\ wall b = wall a + td.
Proof.
  unfold datetime_add.
  destruct ((0 <=? wall a + td) && (wall a + td <=? MAX_DATETIME));
    [|discriminate].
  intros [= <-]. split; reflexivity.
Qed.

Lemma task_span_offset now (task : pydict) (a b : pydatetime) :
  task_span now task = Ok (a, b) -> utcoffset b = utcoffset a.
Proof.
  unfold task_span.
  destruct (fromisoformat _) as [start|]; simpl; [|discriminate].
  destruct (timedelta_minutes _) as [d|]; simpl; [|discriminate].
  destruct (datetime_add start d) as [finish|] eqn:Hadd; simpl; [|discriminate].
  intros [= <- <-]. now apply datetime_add_offset in Hadd.
Qed.

(** [task_interval] is [task_span] on the tasks without UTC offset. *)
Lemma task_interval_span now (task : pydict) (s e : datetime) :
  task_interval now task = Ok (s, e) <->
  task_span now task = Ok (naive s, naive e).
Proof.
  unfold task_interval.
  destruct (task_span now task) as [[a b]|e0] eqn:Hspan; simpl.
  - pose proof (task_span_offset _ _ _ _ Hspan) as Hoff.
    destruct a as [wa oa], b as [wb ob]. simpl in *. subst ob.
    destruct oa as [o|]; split; try discriminate.
    + intros [= <- <-]. reflexivity.
    + intros [= <- <-]. reflexivity.
  - split; discriminate.
Qed.

Lemma overlap_naive (s e s' e' : datetime) :
  overlap (naive s) (naive e) (naive s') (naive e')
  = Ok ((s <? e') && (e >? s')).
Proof.
  unfold overlap, datetime_lt. simpl.
  rewrite Z.gtb_ltb. now destruct (s <? e').
Qed.

(** On a store whose unfinished tasks have a readable interval the loop
    does not raise, and appends the descriptors of the conflicting entries
    in store order. *)
Lemma detect_conflicts_loop_ok now s e items acc :
  (forall id t, In (id, t) items -> not_completed t ->
     exists iv, task_interval now t = Ok iv) ->
  detect_conflicts_loop now (naive s) (naive e) items acc =
  Ok (acc ++ map (fun it => descriptor (fst it) (snd it))
               (List.filter (conflicts_with now s e) items)).
Proof.
  revert acc. induction items as [|[id t] items IH]; intros acc Hty; simpl.
  - now rewrite app_nil_r.
  - assert (Hty' : forall id0 t0, In (id0, t0) items -> not_completed t0 ->
                     exists iv, task_interval now t0 = Ok iv)
      by (intros; eapply Hty; [right|]; eassumption).
    unfold conflicts_with at 1. simpl.
    destruct (is_completed t) eqn:Hc; simpl.
    + now apply IH.
    + destruct (Hty id t) as [[s' e'] Hiv]; [now left|now apply is_completed_false|].
      rewrite Hiv. apply task_interval_span in Hiv. rewrite Hiv. simpl.
      rewrite overlap_naive. simpl.
      destruct ((s <? e') && (e >? s')); simpl.
      * rewrite IH by assumption. now rewrite <- app_assoc.
      * now apply IH.
Qed.

(** The check of a candidate without UTC offset. *)
Lemma detect_conflicts_naive now (candidate : pydict) (self : TaskScheduler)
    (s e : datetime) :
  task_interval now candidate = Ok (s, e) ->
  detect_conflicts now candidate self
  = detect_conflicts_loop now (naive s) (naive e) (tasks self) [].
Proof.
  intros Hiv. apply task_interval_span in Hiv.
  unfold detect_conflicts. now rewrite Hiv.
Qed.

(** For intervals of positive length the overlap test says that the two
    half-open intervals share an instant. *)
Lemma overlap_share_instant (s e s' e' : datetime) :
  s < e -> s' < e' ->
  (s < e' /\ e > s') <-> exists x, (s <= x < e) /\ (s' <= x < e').
Proof.
  intros Hse Hse'. split.
  - intros [H1 H2]. exists (Z.max s s'). lia.
  - intros (x & Hx & Hx'). lia.
Qed.

(** The interval read off the fields is the one that [detect_conflicts]
    computes. *)
Lemma occupies_interval now (task : pydict) (s e : datetime) :
  occupies now task s e -> task_interval now task = Ok (s, e).
Proof.
  intros (minutes & Hs & Hm & -> & Hcs & Hce).
  apply task_interval_span. unfold task_span. rewrite Hs. simpl.
  rewrite (timedelta_whole_minutes _ minutes Hm).
  2: { pose proof (calendar_in_timedelta_range _ _ Hcs Hce) as H.
       now replace (s + minutes * MINUTE - s) with (minutes * MINUTE) in H by lia. }
  simpl. unfold datetime_add. simpl.
  destruct Hce as [Hlo Hhi]. apply Z.leb_le in Hlo, Hhi.
  now rewrite Hlo, Hhi.
Qed.

Lemma occupies_unique now (task : pydict) (s e s' e' : datetime) :
  occupies now task s e -> occupies now task s' e' -> s = s' /\ e = e'.
Proof.
  intros H H'. apply occupies_interval in H, H'.
  rewrite H in H'. injection H' as <- <-. now split.
Qed.


Lemma detect_conflicts_loop_raises now a b items :
  forall acc id t,
    In (id, t) items -> not_completed t ->
    (exists e0, task_span now t = Raise e0) ->
    exists e', detect_conflicts_loop now a b items acc = Raise e'.
Proof.
  induction items as [|[id0 t0] items IH]; intros acc id t Hin Hnc Hbad.
  - destruct Hin.
  - simpl. destruct Hin as [[= -> ->]|Hin].
    + apply is_completed_false in Hnc. rewrite Hnc.
      destruct Hbad as [e0 ->]. simpl. eauto.
    + destruct (is_completed t0); [eapply IH; eassumption|].
      destruct (task_span now t0) as [[a0 b0]|e0]; simpl; [|eauto].
      destruct (overlap a b a0 b0) as [[|]|e0]; simpl; [| |eauto];
        eapply IH; eassumption.
Qed.

Lemma detect_conflicts_raises now (candidate : pydict) (self : TaskScheduler)
    id t :
  In (id, t) (tasks self) -> not_completed t ->
  (exists e0, task_span now t = Raise e0) ->
  exists e', detect_conflicts now candidate self = Raise e'.
Proof.
  intros Hin Hnc Hbad. unfold detect_conflicts.
  destruct (task_span now candidate) as [[a b]|e0]; simpl; [|eauto].
  eapply detect_conflicts_loop_raises; eassumption.
Qed.



(** ** Priority scoring *)






(** ** Create and update *)

Section StoreFacts.
Context {V : Type}.
Implicit Types (d : PyDict.t V) (k : string) (v : V).

Lemma lookup_Some_keys k v d :
  PyDict.lookup k d = Some v -> In k (PyDict.keys d).
Proof.
  intros H. apply lookup_In in H.
  unfold PyDict.keys. change k with (fst (k, v)). now apply in_map.
Qed.

Lemma setitem_setitem k v v' d :
  PyDict.setitem k v (PyDict.setitem k v' d) = PyDict.setitem k v d.
Proof.
  induction d as [|[k0 v0] d IH]; simpl.
  - now rewrite decide_True.
  - destruct (decide (k = k0)) as [->|Hne]; simpl.
    + now rewrite decide_True.
    + rewrite decide_False by assumption. now f_equal.
Qed.

Lemma In_setitem k v k' v' d :
  In (k', v') (PyDict.setitem k v d) -> (k', v') = (k, v) \/ In (k', v') d.
Proof.
  induction d as [|[k0 v0] d IH]; simpl.
  - intros [H|[]]. now left.
  - destruct (decide (k = k0)) as [->|Hne]; simpl.
    + intros [H|H]; [now left|right; now right].
    + intros [H|H]; [right; now left|].
      destruct (IH H); [now left|right; now right].
Qed.

(** Storing again what is stored changes nothing. *)
Lemma setitem_same k v d :
  PyDict.lookup k d = Some v -> PyDict.setitem k v d = d.
Proof.
  induction d as [|[k0 v0] d IH]; simpl; [discriminate|].
  destruct (decide (k = k0)) as [->|Hne].
  - intros [= ->]. reflexivity.
  - intros H. now rewrite IH.
Qed.
End StoreFacts.

Lemma set_tasks_same (self : TaskScheduler) : set_tasks (tasks self) self = self.
Proof. now destruct self. Qed.

Lemma create_task_eq now task_id task_data self :
  create_task now task_id task_data self =
  match calculate_priority_score now (new_task now task_id task_data) with
  | Raise e => (Raise e, self)
  | Ok score =>
      let task := <["priority_score" := VNum score]>
                    (new_task now task_id task_data) in
      match detect_conflicts now task self with
      | Raise e => (Raise e, self)
      | Ok conflicts =>
          let self' := set_tasks (PyDict.setitem task_id task (tasks self)) self in
          match conflicts with
          | [] => (Ok {| cr_task := task; cr_conflicts := [];
                         cr_has_conflicts := false; cr_suggestion := None |},
                   self')
          | _ :: _ =>
              match suggest_optimal_time now task self' with
              | Ok s => (Ok {| cr_task := task; cr_conflicts := conflicts;
                               cr_has_conflicts := true;
                               cr_suggestion := Some s |}, self')
              | Raise e => (Raise e, self')
              end
          end
      end
  end.
Proof.
  unfold create_task. unfold_M.
  destruct (calculate_priority_score _ _) as [score|]; simpl; [|reflexivity].
  destruct (detect_conflicts _ _ _) as [[|c cs]|]; reflexivity.
Qed.

Lemma update_task_eq now task_id updates self :
  update_task now task_id updates self =
  match PyDict.lookup task_id (tasks self) with
  | None => (Ok NotFound, self)
  | Some task =>
      let merged := update updates task in
      match calculate_priority_score now merged with
      | Raise e =>
          (Raise e, set_tasks (PyDict.setitem task_id merged (tasks self)) self)
      | Ok score =>
          let task' := <["updated_at" := VTime now]>
                         (<["priority_score" := VNum score]> merged) in
          (Ok (Found task'),
           set_tasks (PyDict.setitem task_id task' (tasks self)) self)
      end
  end.
Proof.
  unfold update_task. unfold_M.
  destruct (PyDict.lookup task_id (tasks self)) as [task|]; [|reflexivity].
  destruct (calculate_priority_score _ _) as [score|]; simpl; [|reflexivity].
  unfold set_tasks. simpl. now rewrite setitem_setitem.
Qed.

Lemma new_task_status now task_id task_data :
  new_task now task_id task_data !! "status" = Some (VStr "pending").
Proof. unfold new_task. now simplify_map_eq. Qed.

(** C2 (as the code has it). A task that [create_task] returns and stores
    has status 'pending', whatever status the request carried. *)
Theorem create_task_status_pending (now : datetime) (task_id : string)
    (task_data : pydict) (self self' : TaskScheduler) (r : create_result)
    (Hcall : create_task now task_id task_data self = (Ok r, self')) :
  cr_task r !! "status" = Some (VStr "pending")
  /\ PyDict.lookup task_id (tasks self') = Some (cr_task r).
Proof.
  rewrite create_task_eq in Hcall.
  destruct (calculate_priority_score _ _) as [score|]; [|discriminate].
  assert (Hst : (<["priority_score" := VNum score]>
                   (new_task now task_id task_data) : pydict) !! "status"
                = Some (VStr "pending"))
    by (rewrite lookup_insert_ne by discriminate; apply new_task_status).
  simpl in Hcall.
  destruct (detect_conflicts _ _ _) as [[|c cs]|]; [| |discriminate].
  - injection Hcall as <- <-. simpl. split; [assumption|].
    apply lookup_setitem_eq.
  - destruct (suggest_optimal_time _ _ _); [|discriminate].
    injection Hcall as <- <-. simpl. split; [assumption|].
    apply lookup_setitem_eq.
Qed.

Lemma create_task_status_pending_witness :
  create_task 0 "a1b2c3d4" data_A init
  = (Ok {| cr_task := task_A; cr_conflicts := [];
           cr_has_conflicts := false; cr_suggestion := None |}, store_A)
  /\ task_A !! "status" = Some (VStr "pending").
Proof.
  assert (H : create_task 0 "a1b2c3d4" data_A init
              = (Ok {| cr_task := task_A; cr_conflicts := [];
                       cr_has_conflicts := false; cr_suggestion := None |},
                 store_A)) by by_evaluation.
  split; [exact H|].
  exact (proj1 (create_task_status_pending _ _ _ _ _ _ H)).
Defined.

(** C2 fails as stated: a request with status 'completed' is stored as
    'pending'. *)
Lemma create_task_ignores_status :
  data_done !! "status" = Some (VStr "completed")
  /\ create_task 0 "c0ffee00" data_done init
     = (Ok {| cr_task := task_done; cr_conflicts := [];
              cr_has_conflicts := false; cr_suggestion := None |},
        set_tasks [("c0ffee00"%string, task_done)] init)
  /\ task_done !! "status" = Some (VStr "pending").
Proof. split; [|split]; by_evaluation. Qed.

Lemma update_empty (task : pydict) : update ∅ task = task.
Proof. unfold update. apply (left_id_L ∅ (∪)). Qed.

(** C3 (as the code has it).  Whatever the update set, the task stays
    stored under the key it had, and no key is added, removed or moved
    (also when the score computation raises after the merge).  The [id]
    field of the task is left as it was when the update set does not name
    [id]; when it does, the field takes the value given there.  A task that
    the call returns is the task that it has stored. *)
Theorem update_task_keeps_id (now : datetime) (task_id : string)
    (updates : pydict) (self : TaskScheduler) (task : pydict)
    (Hstored : PyDict.lookup task_id (tasks self) = Some task) :
  exists task',
    PyDict.lookup task_id (tasks (snd (update_task now task_id updates self)))
      = Some task'
    /\ (updates !! "id" = None -> task' !! "id" = task !! "id")
    /\ (forall v, updates !! "id" = Some v -> task' !! "id" = Some v)
    /\ (forall r, fst (update_task now task_id updates self) = Ok (Found r) ->
          r = task')
    /\ PyDict.keys (tasks (snd (update_task now task_id updates self)))
       = PyDict.keys (tasks self).
Proof.
  rewrite update_task_eq, Hstored. simpl.
  assert (Hkeys : forall t : pydict,
            PyDict.keys (PyDict.setitem task_id t (tasks self))
            = PyDict.keys (tasks self))
    by (intros t; eapply keys_setitem_in, lookup_Some_keys; eassumption).
  assert (Hid : updates !! "id" = None ->
                update updates task !! "id" = task !! "id")
    by (intros Hnoid; unfold update; now apply lookup_union_r).
  assert (Hid' : forall v, updates !! "id" = Some v ->
                   update updates task !! "id" = Some v)
    by (intros v Hv; unfold update; now apply lookup_union_Some_l).
  destruct (calculate_priority_score now (update updates task)) as [score|e];
    simpl; eexists; (split; [apply lookup_setitem_eq|]).
  - rewrite !lookup_insert_ne by discriminate.
    split; [exact Hid|]. split; [exact Hid'|].
    split; [intros r [= <-]; reflexivity|apply Hkeys].
  - split; [exact Hid|]. split; [exact Hid'|].
    split; [discriminate|apply Hkeys].
Qed.

Lemma update_task_keeps_id_witness :
  PyDict.lookup "a1b2c3d4" (tasks store_A) = Some task_A
  /\ exists task',
       PyDict.lookup "a1b2c3d4"
         (tasks (snd (update_task DAY "a1b2c3d4" data_done store_A))) = Some task'
       /\ task' !! "id" = task_A !! "id"
       /\ PyDict.keys (tasks (snd (update_task DAY "a1b2c3d4" data_done store_A)))
          = PyDict.keys (tasks store_A).
Proof.
  assert (H1 : PyDict.lookup "a1b2c3d4" (tasks store_A) = Some task_A)
    by exact store_A_lookup.
  assert (H2 : data_done !! "id" = None) by by_evaluation.
  split; [exact H1|].
  destruct (update_task_keeps_id DAY "a1b2c3d4" data_done store_A task_A H1)
    as (task' & Hl & Hid & _ & _ & Hkeys).
  exists task'. split; [exact Hl|]. split; [exact (Hid H2)|exact Hkeys].
Defined.

(** C3 fails as stated: an update that names [id] overwrites the field,
    while the task stays stored under its old key. *)
Lemma update_task_overwrites_id :
  PyDict.lookup "a1b2c3d4" (tasks store_A) = Some task_A
  /\ task_A !! "id" = Some (VStr "a1b2c3d4")
  /\ update_task DAY "a1b2c3d4" updates_id store_A
     = (Ok (Found (task_A_next_day (update updates_id task_A))),
        set_tasks [("a1b2c3d4"%string,
                    task_A_next_day (update updates_id task_A))] store_A)
  /\ task_A_next_day (update updates_id task_A) !! "id"
     = Some (VStr "ffffffff").
Proof. split; [|split; [|split]]; by_evaluation. Qed.

(** C4 (as the code has it).  An update with no fields recomputes the
    score of the stored task for the time of the update.  When that gives a
    score, the call returns and stores the task with [updated_at] set to
    the time of the update and [priority_score] set to the new score, every
    other field and every other task unchanged; the new [priority_score]
    is the one that was stored exactly when the stored one is the score of
    the task at the time of the update.  When the score cannot be computed
    the call raises and the scheduler is left as it was. *)
Theorem update_task_empty (now : datetime) (task_id : string)
    (self : TaskScheduler) (task : pydict)
    (Hstored : PyDict.lookup task_id (tasks self) = Some task) :
  (forall s, calculate_priority_score now task = Ok s ->
     exists task' self',
       update_task now task_id ∅ self = (Ok (Found task'), self')
       /\ PyDict.lookup task_id (tasks self') = Some task'
       /\ (forall k : string, k <> "updated_at" -> k <> "priority_score" ->
             task' !! k = task !! k)
       /\ task' !! "updated_at" = Some (VTime now)
       /\ task' !! "priority_score" = Some (VNum s)
       /\ (task' !! "priority_score" = task !! "priority_score"
           <-> task !! "priority_score" = Some (VNum s))
       /\ (forall id', id' <> task_id ->
             PyDict.lookup id' (tasks self') = PyDict.lookup id' (tasks self))
       /\ PyDict.keys (tasks self') = PyDict.keys (tasks self))
  /\ (forall e, calculate_priority_score now task = Raise e ->
        update_task now task_id ∅ self = (Raise e, self)).
Proof.
  rewrite update_task_eq, Hstored. simpl. rewrite update_empty. split.
  - intros s ->. eexists _, _. split; [reflexivity|]. simpl.
    assert (Hnew : (<["updated_at" := VTime now]>
                      (<["priority_score" := VNum s]> task) : pydict)
                   !! "priority_score" = Some (VNum s))
      by (rewrite lookup_insert_ne by discriminate; now rewrite lookup_insert_eq).
    split; [apply lookup_setitem_eq|].
    split; [intros k Hk1 Hk2; now rewrite !lookup_insert_ne by congruence|].
    split; [now rewrite lookup_insert_eq|].
    split; [exact Hnew|].
    split; [rewrite Hnew; split; congruence|].
    split; [intros id' Hne; apply lookup_setitem_ne; congruence|].
    eapply keys_setitem_in, lookup_Some_keys; eassumption.
  - intros e ->. f_equal.
    rewrite setitem_same by assumption. apply set_tasks_same.
Qed.

Lemma update_task_empty_witness :
  PyDict.lookup "a1b2c3d4" (tasks store_A) = Some task_A
  /\ calculate_priority_score DAY task_A = Ok (1450 # 100)%Q
  /\ (exists task' self',
        update_task DAY "a1b2c3d4" ∅ store_A = (Ok (Found task'), self')
        /\ task' !! "priority_score" = Some (VNum (1450 # 100)))
  /\ PyDict.lookup "a1b2c3d4" (tasks store_A_bad_deadline)
     = Some (update updates_bad_deadline task_A)
  /\ calculate_priority_score (2 * DAY) (update updates_bad_deadline task_A)
     = Raise ValueError
  /\ update_task (2 * DAY) "a1b2c3d4" ∅ store_A_bad_deadline
     = (Raise ValueError, store_A_bad_deadline).
Proof.
  assert (H1 : PyDict.lookup "a1b2c3d4" (tasks store_A) = Some task_A)
    by exact store_A_lookup.
  assert (Hs : calculate_priority_score DAY task_A = Ok (1450 # 100)%Q)
    by by_evaluation.
  assert (H2 : PyDict.lookup "a1b2c3d4" (tasks store_A_bad_deadline)
               = Some (update updates_bad_deadline task_A)) by by_evaluation.
  assert (Hr : calculate_priority_score (2 * DAY)
                 (update updates_bad_deadline task_A) = Raise ValueError)
    by by_evaluation.
  split; [exact H1|]. split; [exact Hs|]. split.
  - destruct (proj1 (update_task_empty DAY "a1b2c3d4" store_A task_A H1) _ Hs)
      as (task' & self' & Hu & _ & _ & _ & Hnew & _).
    exists task', self'. split; assumption.
  - split; [exact H2|]. split; [exact Hr|].
    exact (proj2 (update_task_empty (2 * DAY) "a1b2c3d4" store_A_bad_deadline
                    _ H2) _ Hr).
Defined.

(** C4 fails as stated: task A, created at time 0 with score 13.5, gets
    the score 14.5 from an empty update one day later. *)
Lemma update_task_empty_changes_score :
  PyDict.lookup "a1b2c3d4" (tasks store_A) = Some task_A
  /\ task_A !! "priority_score" = Some (VNum (1350 # 100))
  /\ update_task DAY "a1b2c3d4" ∅ store_A
     = (Ok (Found (task_A_next_day task_A)),
        set_tasks [("a1b2c3d4"%string, task_A_next_day task_A)] store_A)
  /\ task_A_next_day task_A !! "priority_score" = Some (VNum (1450 # 100)).
Proof. split; [|split; [|split]]; by_evaluation. Qed.

(** ** The suggestion that [create_task] returns *)

Lemma store_A_timed :
  forall id t, In (id, t) (tasks store_A) -> not_completed t ->
    exists iv, task_interval 0 t = Ok iv.
Proof.
  rewrite store_A_tasks. intros id t [[= <- <-]|[]] _.
  exists (0, HOUR). by_evaluation.
Defined.

Lemma in_calendar_0 : in_calendar 0.
Proof. unfold in_calendar, MAX_DATETIME, DAY, HOUR, MINUTE. lia. Defined.

Lemma in_calendar_30 : in_calendar (30 * MINUTE).
Proof. unfold in_calendar, MAX_DATETIME, DAY, HOUR, MINUTE. lia. Defined.

Lemma in_calendar_60 : in_calendar HOUR.
Proof. unfold in_calendar, MAX_DATETIME, DAY, HOUR, MINUTE. lia. Defined.

Lemma in_calendar_90 : in_calendar (90 * MINUTE).
Proof. unfold in_calendar, MAX_DATETIME, DAY, HOUR, MINUTE. lia. Defined.

Lemma whole_minutes_60 : whole_minutes (VNum 60) 60.
Proof. exists 60%Q. split; reflexivity. Defined.




Lemma task_A_open : not_completed task_A.
Proof.
  unfold not_completed.
  assert (H : task_A !! "status" = Some (VStr "pending")) by by_evaluation.
  rewrite H. discriminate.
Defined.





(** [create_task] computes the suggestion after the new task has been put
    into the store: the scan runs against the store that holds it. *)
Lemma create_task_suggestion now task_id task_data self r self' s :
  create_task now task_id task_data self = (Ok r, self') ->
  cr_suggestion r = Some s ->
  suggest_optimal_time now (cr_task r) self' = Ok s
  /\ PyDict.lookup task_id (tasks self') = Some (cr_task r).
Proof.
  rewrite create_task_eq.
  destruct (calculate_priority_score _ _) as [score|]; [|discriminate].
  simpl.
  destruct (detect_conflicts _ _ _) as [[|c cs]|]; [| |discriminate].
  - intros [= <- <-]. discriminate.
  - destruct (suggest_optimal_time _ _ _) as [s0|] eqn:Hs; [|discriminate].
    intros [= <- <-]. simpl. intros [= <-].
    split; [exact Hs|apply lookup_setitem_eq].
Qed.

(** C1 does not hold of the code.  Task B (00:30 to 01:30) is created on
    the store that holds task A (00:00 to 01:00).  Against the store as it
    was before the call the first free slot for B's data is 01:00; the
    response suggests 02:00, because the slot at 01:00 is checked against
    the stored task B itself. *)
Theorem create_task_suggestion_counts_new_task :
  suggest_optimal_time 0 data_B store_A = Ok (free_slot HOUR)
  /\ create_task 0 "b5c6d7e8" data_B store_A
     = (Ok {| cr_task := task_B;
              cr_conflicts := [descriptor "a1b2c3d4" task_A];
              cr_has_conflicts := true;
              cr_suggestion := Some (free_slot (2 * HOUR)) |}, store_AB)
  /\ detect_conflicts 0 (<["scheduled_time" := VTime HOUR]> task_B) store_A
     = Ok []
  /\ detect_conflicts 0 (<["scheduled_time" := VTime HOUR]> task_B) store_AB
     = Ok [descriptor "b5c6d7e8" task_B].
Proof. split; [|split; [|split]]; by_evaluation. Qed.

(** ** Read / list *)

Lemma filterM_ok {A : Type} (p : A -> res bool) (b : A -> bool) (l : list A) :
  (forall x, In x l -> p x = Ok (b x)) ->
  filterM p l = Ok (List.filter b l).
Proof.
  induction l as [|x l IH]; intros H; simpl; [reflexivity|].
  rewrite (H x) by now left. simpl.
  rewrite IH by (intros; apply H; now right). simpl.
  now destruct (b x).
Qed.

Lemma mapM_ok {A B : Type} (f : A -> res B) (g : A -> B) (l : list A) :
  (forall x, In x l -> f x = Ok (g x)) ->
  mapM f l = Ok (map g l).
Proof.
  induction l as [|x l IH]; intros H; simpl; [reflexivity|].
  rewrite (H x) by now left. simpl.
  rewrite IH by (intros; apply H; now right). reflexivity.
Qed.

Section SortFacts.
Context {A : Type}.
Implicit Types (x y : Q * A) (l : list (Q * A)).

Lemma insert_desc_perm x l : Permutation (insert_desc x l) (x :: l).
Proof.
  induction l as [|y l IH]; simpl; [reflexivity|].
  destruct (Qle_bool (fst y) (fst x)); [reflexivity|].
  rewrite IH. apply perm_swap.
Qed.

Lemma sort_desc_perm l : Permutation (sort_desc l) l.
Proof.
  induction l as [|x l IH]; simpl; [reflexivity|].
  rewrite insert_desc_perm. now apply perm_skip.
Qed.

Lemma insert_desc_sorted x l :
  StronglySorted key_desc l -> StronglySorted key_desc (insert_desc x l).
Proof.
  induction l as [|y l IH]; intros Hs; simpl.
  - constructor; [constructor|constructor].
  - inversion Hs as [|? ? Hs' Hall]; subst.
    destruct (Qle_bool (fst y) (fst x)) eqn:Hle.
    + apply Qle_bool_iff in Hle.
      constructor; [assumption|].
      constructor; [exact Hle|].
      apply List.Forall_forall. intros z Hz.
      rewrite List.Forall_forall in Hall. specialize (Hall z Hz).
      unfold key_desc in *. eapply Qle_trans; eassumption.
    + assert (Hlt : (fst x < fst y)%Q).
      { apply Qnot_le_lt. intros H. apply Qle_bool_iff in H. congruence. }
      constructor; [now apply IH|].
      apply List.Forall_forall. intros z Hz.
      apply (Permutation_in _ (insert_desc_perm x l)) in Hz.
      destruct Hz as [<-|Hz].
      * now apply Qlt_le_weak.
      * rewrite List.Forall_forall in Hall. now apply Hall.
Qed.

Lemma sort_desc_sorted l : StronglySorted key_desc (sort_desc l).
Proof.
  induction l as [|x l IH]; simpl; [constructor|].
  now apply insert_desc_sorted.
Qed.
End SortFacts.

(** Sorting the tasks paired with their scores sorts the tasks. *)
Lemma sorted_keyed (l : list (Q * pydict)) :
  Forall (fun kx => fst kx = score (snd kx)) l ->
  StronglySorted key_desc l ->
  StronglySorted by_score_desc (map snd l).
Proof.
  intros Hk Hs. induction Hs as [|kx l Hs IH Hall]; simpl; [constructor|].
  inversion Hk as [|? ? Hkx Hk']; subst.
  constructor; [now apply IH|].
  apply Forall_map. rewrite List.Forall_forall in *.
  intros ky Hy. unfold by_score_desc, key_desc in *.
  rewrite <- Hkx, <- (Hk' ky Hy). now apply Hall.
Qed.

Section Listable.
Variable t : pydict.
Hypothesis Ht : listable t.

Lemma listable_status s : status_is s t = Ok (has_status s t).
Proof.
  destruct Ht as ([v Hv] & _). unfold status_is, getitem, has_status, get_none, get.
  now rewrite Hv.
Qed.

Lemma listable_priority : priority_of t = Ok (priority t).
Proof.
  destruct Ht as (_ & [p Hp] & _). unfold priority_of, getitem, priority.
  now rewrite Hp.
Qed.

Lemma listable_score : score_of t = Ok (score t).
Proof.
  destruct Ht as (_ & _ & [q Hq]). unfold score_of, getitem, score.
  now rewrite Hq.
Qed.
End Listable.

Lemma apply_filters_ok (fs : option filters) (l : list pydict) :
  Forall listable l ->
  apply_filters fs l = Ok (List.filter (selects fs) l).
Proof.
  intros Hl. rewrite List.Forall_forall in Hl.
  destruct fs as [f|]; simpl; [|now rewrite filter_true].
  assert (H1 : match truthy_status f with
               | Some s => filterM (status_is s) l
               | None => Ok l
               end
               = Ok (List.filter
                       (fun x => match truthy_status f with
                                 | Some s => has_status s x
                                 | None => true
                                 end) l)).
  { destruct (truthy_status f) as [s|]; [|now rewrite filter_true].
    apply filterM_ok. intros x Hx. now apply listable_status, Hl. }
  rewrite H1. simpl.
  set (l1 := List.filter _ l).
  assert (Hl1 : forall x, In x l1 -> listable x)
    by (intros x Hx; apply filter_In in Hx as [Hx _]; now apply Hl).
  assert (H2 : match truthy_priority_min f with
               | Some n =>
                   filterM (fun x => p ← priority_of x;
                                     mret (Qle_bool (inject_Z n) p)) l1
               | None => Ok l1
               end
               = Ok (List.filter
                       (fun x => match truthy_priority_min f with
                                 | Some n => Qle_bool (inject_Z n) (priority x)
                                 | None => true
                                 end) l1)).
  { destruct (truthy_priority_min f) as [n|]; [|now rewrite filter_true].
    apply filterM_ok. intros x Hx. cbv beta.
    now rewrite (listable_priority x (Hl1 x Hx)). }
  rewrite H2. f_equal. unfold l1.
  clear. induction l as [|x l IH]; simpl; [reflexivity|].
  destruct (match truthy_status f with Some s => has_status s x | None => true end);
    simpl; [|exact IH].
  destruct (match truthy_priority_min f with
            | Some n => Qle_bool (inject_Z n) (priority x)
            | None => true
            end); simpl; now rewrite IH.
Qed.

Lemma count_ok (p : pydict -> res bool) (b : pydict -> bool) (l : list pydict) :
  (forall x, In x l -> p x = Ok (b x)) ->
  count p l = Ok (length (List.filter b l)).
Proof. intros H. unfold count. now rewrite (filterM_ok p b l H). Qed.

Lemma count_priority_ok (b : Q -> bool) (l : list pydict) :
  Forall listable l ->
  count (fun t => p ← priority_of t; mret (b p)) l
  = Ok (length (List.filter (fun t => b (priority t)) l)).
Proof.
  intros Hl. rewrite List.Forall_forall in Hl.
  apply count_ok. intros x Hx.
  now rewrite (listable_priority x (Hl x Hx)).
Qed.

Lemma count_status_ok (s : string) (l : list pydict) :
  Forall listable l ->
  count (status_is s) l = Ok (length (List.filter (has_status s) l)).
Proof.
  intros Hl. rewrite List.Forall_forall in Hl.
  apply count_ok. intros x Hx. now apply listable_status, Hl.
Qed.

Lemma summarize_ok (l : list pydict) :
  Forall listable l ->
  summarize l = Ok (summary_of l).
Proof.
  intros Hl. unfold summarize.
  rewrite (count_priority_ok (fun p => Qle_bool 8 p) l Hl).
  rewrite (count_priority_ok
             (fun p => Qle_bool 4 p && negb (Qle_bool 8 p)) l Hl).
  rewrite (count_priority_ok (fun p => negb (Qle_bool 4 p)) l Hl).
  rewrite !count_status_ok by assumption.
  reflexivity.
Qed.

Lemma has_status_true (s : string) (task : pydict) :
  has_status s task = true <-> task !! "status" = Some (VStr s).
Proof.
  unfold has_status, get_none, get, eq_str.
  destruct (task !! "status") as [v|]; simpl.
  - destruct v; try (split; [discriminate|intros [=]]).
    rewrite bool_decide_eq_true. split; [intros ->; reflexivity|intros [=]; assumption].
  - split; discriminate.
Qed.

(** What the filters select, in terms of the request: an empty status and
    a zero minimum do not filter. *)
Lemma selects_spec (fs : option filters) (task : pydict) :
  selects fs task = true <->
  (forall f s, fs = Some f -> f_status f = Some s -> s <> ""%string ->
     task !! "status" = Some (VStr s))
  /\ (forall f n, fs = Some f -> f_priority_min f = Some n -> n <> 0 ->
        (inject_Z n <= priority task)%Q).
Proof.
  destruct fs as [f|]; simpl.
  2: { split; [intros _; split; intros; discriminate|reflexivity]. }
  rewrite andb_true_iff. unfold truthy_status, truthy_priority_min.
  split.
  - intros [Hs Hp]. split.
    + intros f0 s [= <-] Hfs Hne. rewrite Hfs in Hs.
      rewrite bool_decide_false in Hs by assumption.
      now apply has_status_true.
    + intros f0 n [= <-] Hfn Hne. rewrite Hfn in Hp.
      apply Z.eqb_neq in Hne. rewrite Hne in Hp.
      now apply Qle_bool_iff.
  - intros [Hs Hp]. split.
    + destruct (f_status f) as [s|] eqn:Hfs; [|reflexivity].
      destruct (bool_decide (s = ""%string)) eqn:He; [reflexivity|].
      apply has_status_true, (Hs f s); [reflexivity|assumption|].
      intros ->. now rewrite bool_decide_true in He.
    + destruct (f_priority_min f) as [n|] eqn:Hfn; [|reflexivity].
      destruct (n =? 0) eqn:He; [reflexivity|].
      apply Qle_bool_iff, (Hp f n); [reflexivity|assumption|].
      now apply Z.eqb_neq.
Qed.

(** C7 (as the code has it). On a store of listable tasks [get_schedule]
    returns, without changing the store, exactly the stored tasks that the
    filters select (status equal to a non-empty status filter, priority at
    least a non-zero [priority_min]; an empty status and a zero minimum
    select every task), sorted by descending [priority_score], with their
    number and with a summary that counts, among the returned tasks, those
    of priority at least 8, from 4 up to but not including 8, and under 4,
    and those of status 'pending', 'in_progress' and 'completed'. *)
Theorem get_schedule_spec (fs : option filters) (self : TaskScheduler)
    (Hty : Forall listable (PyDict.values (tasks self))) :
  exists r,
    get_schedule fs self = (Ok r, self)
    /\ Permutation (sr_tasks r)
         (List.filter (selects fs) (PyDict.values (tasks self)))
    /\ (forall t, In t (sr_tasks r) <->
                  In t (PyDict.values (tasks self)) /\ selects fs t = true)
    /\ (forall t, selects fs t = true <->
          (forall f s, fs = Some f -> f_status f = Some s -> s <> ""%string ->
             t !! "status" = Some (VStr s))
          /\ (forall f n, fs = Some f -> f_priority_min f = Some n -> n <> 0 ->
                (inject_Z n <= priority t)%Q))
    /\ StronglySorted by_score_desc (sr_tasks r)
    /\ total_tasks r = length (sr_tasks r)
    /\ sr_summary r = summary_of (sr_tasks r).
Proof.
  set (selected := List.filter (selects fs) (PyDict.values (tasks self))).
  set (keyed := map (fun x => (score x, x)) selected).
  set (sorted := map snd (sort_desc keyed)).
  assert (Hsel : Forall listable selected).
  { apply List.Forall_forall. intros x Hx. apply filter_In in Hx as [Hx _].
    rewrite List.Forall_forall in Hty. now apply Hty. }
  assert (Hperm : Permutation sorted selected).
  { unfold sorted. rewrite (sort_desc_perm keyed). unfold keyed.
    rewrite map_map. simpl. now rewrite map_id. }
  assert (Hsorted : Forall listable sorted).
  { apply List.Forall_forall. intros x Hx.
    rewrite List.Forall_forall in Hsel. apply Hsel.
    eapply Permutation_in; eassumption. }
  exists {| total_tasks := length sorted; sr_tasks := sorted;
            sr_summary := summary_of sorted |}.
  split.
  { unfold get_schedule. unfold_M.
    rewrite (apply_filters_ok fs _ Hty). simpl. fold selected.
    rewrite (mapM_ok _ (fun x => (score x, x)) selected).
    2: { intros x Hx. rewrite List.Forall_forall in Hsel.
         now rewrite (listable_score x (Hsel x Hx)). }
    simpl. fold keyed. fold sorted.
    rewrite (summarize_ok sorted Hsorted). reflexivity. }
  simpl. split; [exact Hperm|].
  split.
  { intros t. rewrite <- filter_In. fold selected. split; intros H.
    - eapply Permutation_in; eassumption.
    - eapply Permutation_in; [symmetry|]; eassumption. }
  split; [intros t; apply selects_spec|].
  split; [|split; reflexivity].
  unfold sorted. apply sorted_keyed.
  - apply List.Forall_forall. intros kx Hkx.
    apply (Permutation_in _ (sort_desc_perm keyed)) in Hkx.
    unfold keyed in Hkx. apply in_map_iff in Hkx as (x & <- & _). reflexivity.
  - apply sort_desc_sorted.
Qed.

Lemma store_AB_tasks :
  tasks store_AB = [("a1b2c3d4"%string, task_A); ("b5c6d7e8"%string, task_B)].
Proof. by_evaluation. Qed.

Lemma task_A_listable : listable task_A.
Proof.
  split; [exists (VStr "pending")|split; [exists 5%Q|exists (1350 # 100)%Q]];
    by_evaluation.
Defined.

Lemma task_B_listable : listable task_B.
Proof.
  split; [exists (VStr "pending")|split; [exists 7%Q|exists (1750 # 100)%Q]];
    by_evaluation.
Defined.

Lemma store_AB_listable : Forall listable (PyDict.values (tasks store_AB)).
Proof.
  rewrite store_AB_tasks. simpl.
  constructor; [exact task_A_listable|].
  constructor; [exact task_B_listable|constructor].
Defined.

Lemma get_schedule_spec_witness :
  Forall listable (PyDict.values (tasks store_AB))
  /\ exists r,
       get_schedule (Some filters_pending_5) store_AB = (Ok r, store_AB)
       /\ total_tasks r = 2%nat
       /\ StronglySorted by_score_desc (sr_tasks r).
Proof.
  split; [exact store_AB_listable|].
  destruct (get_schedule_spec (Some filters_pending_5) store_AB store_AB_listable)
    as (r & Hr & Hp & _ & _ & Hs & Hn & _).
  exists r. split; [exact Hr|]. split; [|exact Hs].
  rewrite Hn, (Permutation_length Hp). by_evaluation.
Defined.

(** C7 fails as stated: with [priority_min] given as 0 the task of priority
    -1 is returned, and with the status filter given as the empty string
    the pending tasks are returned. *)
Lemma get_schedule_zero_min_no_filter :
  get_schedule (Some filters_min_0) store_low
    = (Ok {| total_tasks := 1; sr_tasks := [task_low];
             sr_summary := one_low_pending |}, store_low)
  /\ tasks store_low = [("0badc0de"%string, task_low)]
  /\ task_low !! "priority" = Some (VNum (-1))
  /\ f_priority_min filters_min_0 = Some 0
  /\ Qle_bool 0 (-1) = false
  /\ get_schedule (Some filters_empty_status) store_A
     = (Ok {| total_tasks := 1; sr_tasks := [task_A];
              sr_summary := one_medium_pending |}, store_A)
  /\ task_A !! "status" = Some (VStr "pending").
Proof. repeat (split; [by_evaluation|]). by_evaluation. Qed.

(** ** [create_task] returns on readable requests *)

Lemma get_insert_eq (k : string) (v d : value) (task : pydict) :
  get k d (<[k := v]> task) = v.
Proof. unfold get. now rewrite lookup_insert_eq. Qed.

Lemma get_insert_ne (k k' : string) (v d : value) (task : pydict) :
  k <> k' -> get k' d (<[k := v]> task) = get k' d task.
Proof. intros Hne. unfold get. now rewrite lookup_insert_ne. Qed.

(** The task moved to the slot that starts at [current]. *)
Lemma occupies_reschedule now (task : pydict) (current : datetime)
    (minutes : Z) :
  whole_minutes (get "estimated_duration" (VNum 60) task) minutes ->
  in_calendar current -> in_calendar (current + minutes * MINUTE) ->
  occupies now (<["scheduled_time" := VTime current]> task)
    current (current + minutes * MINUTE).
Proof.
  intros Hm Hs He. exists minutes.
  rewrite get_insert_eq, get_insert_ne by discriminate.
  repeat split; solve [assumption | apply Hs | apply He].
Qed.

Lemma detect_conflicts_ok now (candidate : pydict) (self : TaskScheduler) :
  (exists iv, task_interval now candidate = Ok iv) ->
  (forall id t, In (id, t) (tasks self) -> not_completed t ->
     exists iv, task_interval now t = Ok iv) ->
  exists l, detect_conflicts now candidate self = Ok l.
Proof.
  intros [[s e] Hc] Hstore. rewrite (detect_conflicts_naive _ _ _ _ _ Hc).
  rewrite detect_conflicts_loop_ok by assumption. eexists. reflexivity.
Qed.

Lemma datetime_add_naive (t : datetime) (td : timedelta) :
  in_calendar (t + td) -> datetime_add (naive t) td = Ok (naive (t + td)).
Proof.
  intros [Hlo Hhi]. unfold datetime_add. simpl.
  apply Z.leb_le in Hlo, Hhi. now rewrite Hlo, Hhi.
Qed.

(** The scan does not raise when every slot that it can try, from [now] up
    to the deadline, keeps the task within the calendar. *)
Lemma suggest_loop_ok now deadline (task : pydict) (self : TaskScheduler)
    (minutes : Z) :
  whole_minutes (get "estimated_duration" (VNum 60) task) minutes ->
  0 <= now -> 0 <= now + minutes * MINUTE ->
  deadline + HOUR + Z.max 0 (minutes * MINUTE) <= MAX_DATETIME ->
  (forall id t, In (id, t) (tasks self) -> not_completed t ->
     exists iv, task_interval now t = Ok iv) ->
  forall fuel checks current, now <= current ->
    exists r, suggest_loop now deadline task self fuel checks current = Ok r.
Proof.
  intros Hm Hnow Hlo Hhi Hstore fuel.
  assert (Hpos : 0 < HOUR) by reflexivity.
  induction fuel as [|fuel IH]; intros checks current Hle; simpl.
  - eexists. reflexivity.
  - destruct (current <? deadline) eqn:Hlt; [|eexists; reflexivity].
    apply Z.ltb_lt in Hlt.
    destruct (detect_conflicts_ok now
                (<["scheduled_time" := VTime current]> task) self) as [l Hl];
      [|assumption|].
    { exists (current, current + minutes * MINUTE).
      apply occupies_interval, occupies_reschedule; [assumption| |];
        unfold in_calendar; lia. }
    rewrite Hl. simpl. destruct l as [|c l]; [eexists; reflexivity|].
    rewrite datetime_add_naive by (unfold in_calendar; lia).
    simpl. apply IH. lia.
Qed.

(** A request that can be scored, whose deadline and scheduled time are
    ISO text without UTC offset and whose duration is a whole number of
    minutes, is served without an exception on a store whose unfinished
    tasks have a readable interval, provided that the task stays within the
    calendar where it is scheduled and in every slot up to its deadline. *)
Lemma create_task_returns now task_id (task_data : pydict) self
    (score : Q) (d st : datetime) (minutes : Z) :
  calculate_priority_score now (new_task now task_id task_data) = Ok score ->
  get "deadline" (VTime (now + 7 * DAY)) task_data = VTime d ->
  get "scheduled_time" (VTime now) task_data = VTime st ->
  whole_minutes (get "estimated_duration" (VNum 60) task_data) minutes ->
  in_calendar st -> in_calendar (st + minutes * MINUTE) ->
  0 <= now -> 0 <= now + minutes * MINUTE ->
  d + HOUR + Z.max 0 (minutes * MINUTE) <= MAX_DATETIME ->
  (forall id t, In (id, t) (tasks self) -> not_completed t ->
     exists iv, task_interval now t = Ok iv) ->
  exists r self', create_task now task_id task_data self = (Ok r, self').
Proof.
  intros Hscore Hd Hst Hm Hcs Hce Hnow Hlo Hhi Hstore.
  rewrite create_task_eq, Hscore. simpl.
  set (task0 := new_task now task_id task_data).
  set (task := <["priority_score" := VNum score]> task0).
  assert (Hd1 : task !! "deadline" = Some (VTime d))
    by (subst task task0; rewrite lookup_insert_ne by discriminate;
        unfold new_task; simplify_map_eq; now rewrite Hd).
  assert (Hst1 : get "scheduled_time" (VTime now) task = VTime st)
    by (subst task task0; rewrite get_insert_ne by discriminate;
        unfold new_task, get at 1; simplify_map_eq; exact Hst).
  assert (Hm1 : get "estimated_duration" (VNum 60) task
                = get "estimated_duration" (VNum 60) task_data)
    by (subst task task0; rewrite get_insert_ne by discriminate;
        unfold new_task, get at 1; now simplify_map_eq).
  assert (Htask : exists iv, task_interval now task = Ok iv).
  { exists (st, st + minutes * MINUTE). apply occupies_interval.
    exists minutes. rewrite Hst1, Hm1. repeat split; assumption || apply Hcs
      || apply Hce. }
  destruct (detect_conflicts_ok now task self Htask Hstore) as [l Hl].
  rewrite Hl. destruct l as [|c l]; [eexists _, _; reflexivity|].
  set (self' := set_tasks _ self).
  assert (Hstore' : forall id t, In (id, t) (tasks self') -> not_completed t ->
                      exists iv, task_interval now t = Ok iv).
  { intros id t Hin Hnc. simpl in Hin.
    apply In_setitem in Hin as [[= -> ->]|Hin]; [assumption|eauto]. }
  assert (Hm2 : whole_minutes (get "estimated_duration" (VNum 60) task) minutes)
    by now rewrite Hm1.
  destruct (suggest_loop_ok now d task self' minutes Hm2 Hnow Hlo Hhi Hstore'
              (slots_before d now) O now (Z.le_refl now)) as [r Hr].
  unfold suggest_optimal_time, suggest_scan, get.
  rewrite Hd1. simpl. rewrite Hr. simpl. eexists _, _. reflexivity.
Qed.

(** * Further properties of the engine and of the routes *)

(** ** The scan of [suggest_optimal_time] is a first-fit search *)

Lemma slots_before_0 deadline current :
  slots_before deadline current = O -> deadline <= current.
Proof.
  intros H. destruct (Z_lt_le_dec current deadline) as [Hlt|Hle]; [|exact Hle].
  rewrite slots_before_lt in H by assumption. discriminate.
Qed.

Lemma slots_before_S deadline current fuel :
  slots_before deadline current = S fuel ->
  current < deadline /\ fuel = slots_before deadline (current + HOUR).
Proof.
  intros H. destruct (Z_lt_le_dec current deadline) as [Hlt|Hle].
  - split; [exact Hlt|]. rewrite slots_before_lt in H by assumption. congruence.
  - rewrite slots_before_ge in H by assumption. discriminate.
Qed.

Lemma suggest_loop_first_fit now deadline (task : pydict) (self : TaskScheduler) :
  forall fuel current checks n s,
    fuel = slots_before deadline current ->
    suggest_loop now deadline task self fuel checks current = Ok (n, s) ->
    exists j : nat,
      suggested_time s = current + Z.of_nat j * HOUR
      /\ (forall i : nat, (i < j)%nat ->
            current + Z.of_nat i * HOUR < deadline
            /\ slot_busy now task self (current + Z.of_nat i * HOUR))
      /\ ((s = free_slot (suggested_time s)
           /\ n = S (checks + j)
           /\ suggested_time s < deadline
           /\ slot_free now task self (suggested_time s))
          \/ (s = no_conflict_near_deadline (suggested_time s)
              /\ n = (checks + j)%nat
              /\ deadline <= suggested_time s
              /\ ((0 < j)%nat -> suggested_time s < deadline + HOUR))).
Proof.
  induction fuel as [|fuel IH]; intros current checks n s Hfuel Hrun.
  - symmetry in Hfuel. apply slots_before_0 in Hfuel.
    simpl in Hrun. injection Hrun as <- <-. exists O. simpl.
    split; [lia|]. split; [intros i Hi; lia|].
    right. repeat split; lia.
  - symmetry in Hfuel. apply slots_before_S in Hfuel as [Hlt Hfuel].
    simpl in Hrun. apply Z.ltb_lt in Hlt. rewrite Hlt in Hrun.
    apply Z.ltb_lt in Hlt.
    destruct (detect_conflicts now (<["scheduled_time" := VTime current]> task) self)
      as [[|c l]|e] eqn:Hdet; simpl in Hrun; [| |discriminate].
    + injection Hrun as <- <-. exists O. simpl.
      split; [lia|]. split; [intros i Hi; lia|].
      left. repeat split; first [assumption|lia].
    + unfold datetime_add in Hrun. simpl in Hrun.
      destruct ((0 <=? current + HOUR) && (current + HOUR <=? MAX_DATETIME));
        [|discriminate].
      simpl in Hrun.
      destruct (IH (current + HOUR) (S checks) n s Hfuel Hrun)
        as (j & Ht & Hbusy & Hend).
      exists (S j). rewrite Nat2Z.inj_succ.
      split; [rewrite Ht; lia|]. split.
      * intros [|i] Hi.
        -- simpl. rewrite Z.add_0_r. split; [exact Hlt|]. now exists c, l.
        -- rewrite Nat2Z.inj_succ.
           replace (current + Z.succ (Z.of_nat i) * HOUR)
             with (current + HOUR + Z.of_nat i * HOUR) by lia.
           apply Hbusy. lia.
      * destruct Hend as [(Hs & Hn & Hd & Hfree)|(Hs & Hn & Hd & Hnear)].
        -- left. repeat split; try assumption. lia.
        -- right. repeat split; try assumption; [lia|].
           intros _. destruct j as [|j].
           ++ rewrite Ht. simpl. lia.
           ++ apply Hnear. lia.
Qed.

(** X1. [suggest_optimal_time] is a first-fit search over the hourly slots
    [now], [now + 1h], ...: every slot before the returned one lies before
    the deadline and was found busy; a result with confidence 95 is a slot
    before the deadline that was found free, and a result with confidence 60
    is the first slot at or after the deadline.  The number of conflict
    checks is the number of slots tried. *)
Theorem suggest_scan_first_fit (now : datetime) (task : pydict)
    (self : TaskScheduler) (d : datetime) (n : nat) (s : suggestion)
    (Hd : get "deadline" (VTime (now + 7 * DAY)) task = VTime d)
    (Hrun : suggest_scan now task self = Ok (n, s)) :
  suggest_optimal_time now task self = Ok s
  /\ exists j : nat,
       suggested_time s = now + Z.of_nat j * HOUR
       /\ (forall i : nat, (i < j)%nat ->
             now + Z.of_nat i * HOUR < d
             /\ slot_busy now task self (now + Z.of_nat i * HOUR))
       /\ ((s = free_slot (suggested_time s)
            /\ n = S j
            /\ suggested_time s < d
            /\ slot_free now task self (suggested_time s))
           \/ (s = no_conflict_near_deadline (suggested_time s)
               /\ n = j
               /\ d <= suggested_time s
               /\ ((0 < j)%nat -> suggested_time s < d + HOUR))).
Proof.
  split; [unfold suggest_optimal_time; now rewrite Hrun|].
  unfold suggest_scan in Hrun. rewrite Hd in Hrun. simpl in Hrun.
  apply (suggest_loop_first_fit now d task self _ now O n s eq_refl Hrun).
Qed.

Lemma suggest_scan_first_fit_witness :
  get "deadline" (VTime (0 + 7 * DAY)) data_B = VTime (7 * DAY)
  /\ suggest_scan 0 data_B store_A = Ok (2%nat, free_slot HOUR)
  /\ suggest_optimal_time 0 data_B store_A = Ok (free_slot HOUR).
Proof.
  assert (Hd : get "deadline" (VTime (0 + 7 * DAY)) data_B = VTime (7 * DAY))
    by by_evaluation.
  assert (Hrun : suggest_scan 0 data_B store_A = Ok (2%nat, free_slot HOUR))
    by by_evaluation.
  split; [exact Hd|]. split; [exact Hrun|].
  exact (proj1 (suggest_scan_first_fit 0 data_B store_A _ _ _ Hd Hrun)).
Defined.

Lemma detect_conflicts_loop_completed now a b items acc :
  (forall id t, In (id, t) items -> is_completed t = true) ->
  detect_conflicts_loop now a b items acc = Ok acc.
Proof.
  revert acc. induction items as [|[id t] items IH]; intros acc Hall; simpl.
  - reflexivity.
  - rewrite (Hall id t) by now left. apply IH.
    intros id' t' Hin. apply (Hall id' t'). now right.
Qed.

(** X2. When the store holds no unfinished task (it is empty, or every
    task is 'completed') and the deadline, ISO text without UTC offset, is
    still ahead, [suggest_optimal_time] returns the current time with
    confidence 95 after a single conflict check, for any task data whose
    duration is a whole number of minutes that keeps the task, started
    now, within the calendar.  What the completed tasks hold in their
    fields does not matter. *)
Theorem suggest_nothing_pending (now : datetime) (task : pydict)
    (self : TaskScheduler) (d : datetime) (minutes : Z)
    (Hd : get "deadline" (VTime (now + 7 * DAY)) task = VTime d)
    (Hm : whole_minutes (get "estimated_duration" (VNum 60) task) minutes)
    (Hnow : in_calendar now)
    (Hfit : in_calendar (now + minutes * MINUTE))
    (Hahead : now < d)
    (Hdone : forall id t, In (id, t) (tasks self) -> is_completed t = true) :
  suggest_scan now task self = Ok (1%nat, free_slot now)
  /\ suggest_optimal_time now task self = Ok (free_slot now).
Proof.
  assert (Hscan : suggest_scan now task self = Ok (1%nat, free_slot now)).
  { unfold suggest_scan. rewrite Hd. simpl.
    rewrite suggest_loop_unfold.
    apply Z.ltb_lt in Hahead. rewrite Hahead.
    rewrite (detect_conflicts_naive now _ self now (now + minutes * MINUTE))
      by now apply occupies_interval, occupies_reschedule.
    rewrite detect_conflicts_loop_completed by assumption. reflexivity. }
  split; [exact Hscan|].
  unfold suggest_optimal_time. now rewrite Hscan.
Qed.

Lemma store_A_completed_tasks :
  tasks store_A_completed = [("a1b2c3d4"%string, task_A_completed)].
Proof. by_evaluation. Qed.

Lemma suggest_nothing_pending_witness :
  get "deadline" (VTime (0 + 7 * DAY)) data_B = VTime (7 * DAY)
  /\ whole_minutes (get "estimated_duration" (VNum 60) data_B) 60
  /\ in_calendar 0 /\ in_calendar (0 + 60 * MINUTE)
  /\ 0 < 7 * DAY
  /\ tasks store_A_completed = [("a1b2c3d4"%string, task_A_completed)]
  /\ is_completed task_A_completed = true
  /\ suggest_optimal_time 0 data_B store_A_completed = Ok (free_slot 0).
Proof.
  assert (Hd : get "deadline" (VTime (0 + 7 * DAY)) data_B = VTime (7 * DAY))
    by by_evaluation.
  assert (Hm : whole_minutes (get "estimated_duration" (VNum 60) data_B) 60).
  { assert (H : get "estimated_duration" (VNum 60) data_B = VNum 60)
      by by_evaluation.
    rewrite H. exact whole_minutes_60. }
  assert (Hahead : 0 < 7 * DAY) by reflexivity.
  assert (Hc : is_completed task_A_completed = true) by by_evaluation.
  assert (Hdone : forall id t, In (id, t) (tasks store_A_completed) ->
                    is_completed t = true)
    by (rewrite store_A_completed_tasks; intros id t [[= <- <-]|[]]; exact Hc).
  split; [exact Hd|]. split; [exact Hm|].
  split; [exact in_calendar_0|]. split; [exact in_calendar_60|].
  split; [exact Hahead|]. split; [exact store_A_completed_tasks|].
  split; [exact Hc|].
  exact (proj2 (suggest_nothing_pending 0 data_B store_A_completed _ _
                  Hd Hm in_calendar_0 in_calendar_60 Hahead Hdone)).
Defined.

(** ** Conflicts among stored tasks *)

Lemma detect_conflicts_In now (candidate : pydict) (self : TaskScheduler)
    (s e : datetime) :
  PyDict.wf (tasks self) ->
  task_interval now candidate = Ok (s, e) ->
  (forall id t, In (id, t) (tasks self) -> not_completed t ->
     exists iv, task_interval now t = Ok iv) ->
  exists l,
    detect_conflicts now candidate self = Ok l
    /\ forall id t, PyDict.lookup id (tasks self) = Some t ->
         (In (descriptor id t) l <->
          not_completed t /\
          exists s' e', task_interval now t = Ok (s', e') /\ s < e' /\ e > s').
Proof.
  intros Hwf Hcand Hstore.
  exists (map (fun it => descriptor (fst it) (snd it))
            (List.filter (conflicts_with now s e) (tasks self))).
  split.
  { rewrite (detect_conflicts_naive _ _ _ _ _ Hcand).
    rewrite detect_conflicts_loop_ok by assumption. reflexivity. }
  intros id t Hl. rewrite in_map_iff. split.
  - intros ([id' t'] & Heq & Hf). apply filter_In in Hf as [Hit Hcw].
    injection Heq as Hid _ _. simpl in Hid. subst id'.
    apply (In_lookup _ _ _ Hwf) in Hit.
    assert (t' = t) by congruence. subst t'.
    unfold conflicts_with in Hcw. simpl in Hcw.
    apply andb_true_iff in Hcw as [Hnc Hov].
    apply negb_true_iff, is_completed_false in Hnc.
    destruct (task_interval now t) as [[s' e']|]; [|discriminate].
    apply andb_true_iff in Hov as [H1 H2].
    apply Z.ltb_lt in H1. rewrite Z.gtb_ltb in H2. apply Z.ltb_lt in H2.
    split; [assumption|]. exists s', e'. repeat split; [assumption|lia].
  - intros (Hnc & s' & e' & Hiv & H1 & H2).
    exists (id, t). split; [reflexivity|].
    apply filter_In. split; [now apply lookup_In|].
    unfold conflicts_with. simpl. rewrite Hiv.
    apply is_completed_false in Hnc. rewrite Hnc. simpl.
    apply andb_true_iff. split; [now apply Z.ltb_lt|].
    rewrite Z.gtb_ltb. apply Z.ltb_lt. lia.
Qed.

(** X3. Among the unfinished tasks of a store the conflict relation is
    symmetric: task B is reported when the stored task A is checked exactly
    when A is reported when B is checked.  It is reflexive on tasks of
    positive duration: checking a stored unfinished task reports that task
    itself. *)
Theorem stored_conflicts_symmetric (now : datetime) (self : TaskScheduler)
    (idA idB : string) (A B : pydict)
    (Hwf : PyDict.wf (tasks self))
    (Hstore : forall id t, In (id, t) (tasks self) -> not_completed t ->
                exists iv, task_interval now t = Ok iv)
    (HA : PyDict.lookup idA (tasks self) = Some A)
    (HB : PyDict.lookup idB (tasks self) = Some B)
    (HAopen : not_completed A) (HBopen : not_completed B) :
  exists lA lB,
    detect_conflicts now A self = Ok lA
    /\ detect_conflicts now B self = Ok lB
    /\ (In (descriptor idB B) lA <-> In (descriptor idA A) lB)
    /\ (forall s e, task_interval now A = Ok (s, e) -> s < e ->
          In (descriptor idA A) lA).
Proof.
  destruct (Hstore idA A (lookup_In _ _ _ HA) HAopen) as [[sA eA] HivA].
  destruct (Hstore idB B (lookup_In _ _ _ HB) HBopen) as [[sB eB] HivB].
  destruct (detect_conflicts_In now A self sA eA Hwf HivA Hstore) as (lA & HlA & HinA).
  destruct (detect_conflicts_In now B self sB eB Hwf HivB Hstore) as (lB & HlB & HinB).
  exists lA, lB. split; [exact HlA|]. split; [exact HlB|]. split.
  - rewrite (HinA idB B HB), (HinB idA A HA). split.
    + intros (_ & s' & e' & Hiv & H1 & H2).
      rewrite HivB in Hiv. injection Hiv as <- <-.
      split; [assumption|]. exists sA, eA. repeat split; [assumption|lia|lia].
    + intros (_ & s' & e' & Hiv & H1 & H2).
      rewrite HivA in Hiv. injection Hiv as <- <-.
      split; [assumption|]. exists sB, eB. repeat split; [assumption|lia|lia].
  - intros s e Hiv Hpos. rewrite HivA in Hiv. injection Hiv as <- <-.
    apply (HinA idA A HA). split; [assumption|].
    exists sA, eA. repeat split; [assumption|lia|lia].
Qed.

Lemma store_AB_wf : PyDict.wf (tasks store_AB).
Proof.
  rewrite store_AB_tasks. unfold PyDict.wf. simpl.
  constructor; [simpl; intros [H|[]]; discriminate|].
  constructor; [simpl; tauto|constructor].
Defined.

Lemma store_AB_timed :
  forall id t, In (id, t) (tasks store_AB) -> not_completed t ->
    exists iv, task_interval 0 t = Ok iv.
Proof.
  rewrite store_AB_tasks. intros id t [[= <- <-]|[[= <- <-]|[]]] _.
  - exists (0, HOUR). by_evaluation.
  - exists (30 * MINUTE, 90 * MINUTE). by_evaluation.
Defined.

Lemma task_B_open : not_completed task_B.
Proof.
  unfold not_completed.
  assert (H : task_B !! "status" = Some (VStr "pending")) by by_evaluation.
  rewrite H. discriminate.
Defined.

Lemma stored_conflicts_symmetric_witness :
  PyDict.wf (tasks store_AB)
  /\ PyDict.lookup "a1b2c3d4" (tasks store_AB) = Some task_A
  /\ PyDict.lookup "b5c6d7e8" (tasks store_AB) = Some task_B
  /\ not_completed task_A /\ not_completed task_B
  /\ exists lA lB,
       detect_conflicts 0 task_A store_AB = Ok lA
       /\ detect_conflicts 0 task_B store_AB = Ok lB
       /\ (In (descriptor "b5c6d7e8" task_B) lA
           <-> In (descriptor "a1b2c3d4" task_A) lB).
Proof.
  assert (HA : PyDict.lookup "a1b2c3d4" (tasks store_AB) = Some task_A)
    by by_evaluation.
  assert (HB : PyDict.lookup "b5c6d7e8" (tasks store_AB) = Some task_B)
    by by_evaluation.
  split; [exact store_AB_wf|]. split; [exact HA|]. split; [exact HB|].
  split; [exact task_A_open|]. split; [exact task_B_open|].
  destruct (stored_conflicts_symmetric 0 store_AB _ _ _ _ store_AB_wf
              store_AB_timed HA HB task_A_open task_B_open)
    as (lA & lB & H1 & H2 & H3 & _).
  exists lA, lB. repeat split; assumption || apply H3.
Defined.

(** ** What [create_task] does to the store and puts in its response *)

Lemma score_ok_deadline now (task : pydict) (s : Q) :
  calculate_priority_score now task = Ok s ->
  exists d, get "deadline" (VTime now) task = VTime d.
Proof.
  unfold calculate_priority_score.
  destruct (get "deadline" (VTime now) task); simpl; try discriminate.
  intros _. eexists. reflexivity.
Qed.

(** A comparison that returns has compared two naive or two aware
    datetimes. *)
Lemma datetime_lt_offsets (a b : pydatetime) (r : bool) :
  datetime_lt a b = Ok r -> (is_Some (utcoffset a) <-> is_Some (utcoffset b)).
Proof.
  unfold datetime_lt.
  destruct (utcoffset a), (utcoffset b); try discriminate; intros _;
    split; intros H; try (eexists; reflexivity); exact H.
Qed.

Lemma detect_conflicts_loop_inv now a b items acc l :
  detect_conflicts_loop now a b items acc = Ok l ->
  forall id t, In (id, t) items -> not_completed t ->
    exists a' b', task_span now t = Ok (a', b')
                  /\ (is_Some (utcoffset a') <-> is_Some (utcoffset a)).
Proof.
  revert acc. induction items as [|[id0 t0] items IH]; intros acc Hrun id t Hin Hnc.
  - destruct Hin.
  - simpl in Hrun. destruct Hin as [[= -> ->]|Hin].
    + apply is_completed_false in Hnc. rewrite Hnc in Hrun.
      destruct (task_span now t) as [[a' b']|] eqn:Hspan; [|discriminate].
      simpl in Hrun. exists a', b'. split; [reflexivity|].
      unfold overlap in Hrun.
      destruct (datetime_lt a b') as [r|] eqn:Hlt; [|discriminate].
      apply datetime_lt_offsets in Hlt.
      rewrite (task_span_offset _ _ _ _ Hspan) in Hlt. now symmetry.
    + destruct (is_completed t0); [now apply (IH acc Hrun id t)|].
      destruct (task_span now t0) as [[a0 b0]|]; [|discriminate].
      simpl in Hrun.
      destruct (overlap a b a0 b0) as [[|]|]; [| |discriminate];
        now apply (IH _ Hrun id t).
Qed.

Lemma detect_conflicts_inv now (candidate : pydict) (self : TaskScheduler) l :
  detect_conflicts now candidate self = Ok l ->
  exists a b,
    task_span now candidate = Ok (a, b)
    /\ forall id t, In (id, t) (tasks self) -> not_completed t ->
         exists a' b', task_span now t = Ok (a', b')
                       /\ (is_Some (utcoffset a') <-> is_Some (utcoffset a)).
Proof.
  unfold detect_conflicts. intros Hrun.
  destruct (task_span now candidate) as [[a b]|]; [|discriminate].
  simpl in Hrun. exists a, b. split; [reflexivity|].
  eapply detect_conflicts_loop_inv. eassumption.
Qed.

Lemma detect_conflicts_loop_ids now a b items acc l :
  detect_conflicts_loop now a b items acc = Ok l ->
  forall c, In c l -> In c acc \/ In (c_task_id c) (PyDict.keys items).
Proof.
  revert acc. induction items as [|[id0 t0] items IH]; intros acc Hrun c Hc.
  - simpl in Hrun. injection Hrun as <-. now left.
  - simpl in Hrun. simpl.
    destruct (is_completed t0).
    { destruct (IH acc Hrun c Hc); [now left|right; now right]. }
    destruct (task_span now t0) as [[a0 b0]|]; [|discriminate].
    simpl in Hrun. destruct (overlap a b a0 b0) as [[|]|]; [| |discriminate].
    + destruct (IH _ Hrun c Hc) as [Hacc|Hk]; [|right; now right].
      apply in_app_or in Hacc as [Hacc|[<-|[]]]; [now left|].
      right. now left.
    + destruct (IH acc Hrun c Hc); [now left|right; now right].
Qed.

Lemma new_task_lookup now task_id (task_data : pydict) (k : string) :
  In k request_fields ->
  forall v, task_data !! k = Some v ->
    new_task now task_id task_data !! k = Some v.
Proof.
  intros Hk v Hv. unfold new_task, get.
  simpl in Hk.
  repeat (destruct Hk as [<-|Hk];
          [simplify_map_eq; first [reflexivity|now rewrite Hv]|]).
  destruct Hk.
Qed.

Lemma new_task_deadline now task_id (task_data : pydict) :
  new_task now task_id task_data !! "deadline"
  = Some (get "deadline" (VTime (now + 7 * DAY)) task_data).
Proof. unfold new_task. now simplify_map_eq. Qed.

Lemma setitem_fresh {V : Type} (k : string) (v : V) (d : PyDict.t V) :
  PyDict.lookup k d = None -> PyDict.setitem k v d = d ++ [(k, v)].
Proof.
  induction d as [|[k0 v0] d IH]; simpl; [reflexivity|].
  destruct (decide (k = k0)); [discriminate|].
  intros H. now rewrite IH.
Qed.

(** X4. [create_task] is not all-or-nothing.  When the call raises, either
    nothing has been stored (the score or the conflict check raised), or
    the conflict check had found conflicts, the new task has already been
    stored under the new id, and it is the suggestion scan, run after the
    insertion, that raised.  Every other task is untouched in both cases. *)
Theorem create_task_raise_store (now : datetime) (task_id : string)
    (task_data : pydict) (self self' : TaskScheduler) (e : exn)
    (Hcall : create_task now task_id task_data self = (Raise e, self')) :
  (self' = self
   /\ (calculate_priority_score now (new_task now task_id task_data) = Raise e
       \/ exists score,
            calculate_priority_score now (new_task now task_id task_data)
              = Ok score
            /\ detect_conflicts now
                 (<["priority_score" := VNum score]>
                    (new_task now task_id task_data)) self = Raise e))
  \/ (exists score c l,
        calculate_priority_score now (new_task now task_id task_data) = Ok score
        /\ detect_conflicts now
             (<["priority_score" := VNum score]>
                (new_task now task_id task_data)) self = Ok (c :: l)
        /\ self' = set_tasks
                     (PyDict.setitem task_id
                        (<["priority_score" := VNum score]>
                           (new_task now task_id task_data)) (tasks self)) self
        /\ suggest_optimal_time now
             (<["priority_score" := VNum score]>
                (new_task now task_id task_data)) self' = Raise e
        /\ forall id', id' <> task_id ->
             PyDict.lookup id' (tasks self') = PyDict.lookup id' (tasks self)).
Proof.
  rewrite create_task_eq in Hcall.
  destruct (calculate_priority_score now (new_task now task_id task_data))
    as [score|e0] eqn:Hscore.
  2: { injection Hcall as <- <-. left. split; [reflexivity|now left]. }
  simpl in Hcall.
  set (task := <["priority_score" := VNum score]>
                 (new_task now task_id task_data)) in *.
  destruct (detect_conflicts now task self) as [[|c l]|e0] eqn:Hdet;
    [discriminate| |].
  2: { injection Hcall as <- <-. left. split; [reflexivity|].
       right. exists score. now split. }
  destruct (suggest_optimal_time now task
              (set_tasks (PyDict.setitem task_id task (tasks self)) self))
    as [sg|e0] eqn:Hs; [discriminate|].
  injection Hcall as <- <-. right. exists score, c, l.
  split; [reflexivity|]. split; [exact Hdet|]. split; [reflexivity|].
  split; [exact Hs|].
  intros id' Hne. simpl. apply lookup_setitem_ne. congruence.
Qed.

Lemma create_task_raise_store_witness :
  create_task 0 "b5c6d7e8" data_long store_A
  = (Raise OverflowError,
     set_tasks [("a1b2c3d4"%string, task_A); ("b5c6d7e8"%string, task_long)]
       store_A)
  /\ exists score c l,
       detect_conflicts 0
         (<["priority_score" := VNum score]> (new_task 0 "b5c6d7e8" data_long))
         store_A = Ok (c :: l).
Proof.
  assert (H : create_task 0 "b5c6d7e8" data_long store_A
              = (Raise OverflowError,
                 set_tasks [("a1b2c3d4"%string, task_A);
                            ("b5c6d7e8"%string, task_long)] store_A))
    by by_evaluation.
  split; [exact H|].
  destruct (create_task_raise_store _ _ _ _ _ _ H)
    as [[Hsame _]|(score & c & l & _ & Hdet & _)].
  - exfalso. apply (f_equal (fun x => length (tasks x))) in Hsame.
    rewrite store_A_tasks in Hsame. discriminate Hsame.
  - exists score, c, l. exact Hdet.
Defined.

(** X5. A call of [create_task] that returns has put the returned task
    under the generated id, with that id in its [id] field and the time of
    the call in [created_at]; every other stored task is untouched.  With
    an id not yet in the store the task is appended after the existing
    ones; with an id already in the store it replaces the task filed there,
    in place.  Distinct ids stay distinct. *)
Theorem create_task_store (now : datetime) (task_id : string)
    (task_data : pydict) (self self' : TaskScheduler) (r : create_result)
    (Hcall : create_task now task_id task_data self = (Ok r, self')) :
  tasks self' = PyDict.setitem task_id (cr_task r) (tasks self)
  /\ schedule self' = schedule self
  /\ cr_task r !! "id" = Some (VStr task_id)
  /\ cr_task r !! "created_at" = Some (VTime now)
  /\ (forall id', id' <> task_id ->
        PyDict.lookup id' (tasks self') = PyDict.lookup id' (tasks self))
  /\ (PyDict.lookup task_id (tasks self) = None ->
        tasks self' = tasks self ++ [(task_id, cr_task r)])
  /\ (forall old, PyDict.lookup task_id (tasks self) = Some old ->
        PyDict.keys (tasks self') = PyDict.keys (tasks self))
  /\ (PyDict.wf (tasks self) -> PyDict.wf (tasks self')).
Proof.
  rewrite create_task_eq in Hcall.
  destruct (calculate_priority_score _ _) as [score|]; [|discriminate].
  simpl in Hcall.
  assert (Hshape : cr_task r = <["priority_score" := VNum score]>
                                 (new_task now task_id task_data)
                   /\ self' = set_tasks
                                (PyDict.setitem task_id (cr_task r) (tasks self))
                                self).
  { destruct (detect_conflicts _ _ _) as [[|c cs]|]; [| |discriminate].
    - injection Hcall as <- <-. now split.
    - destruct (suggest_optimal_time _ _ _); [|discriminate].
      injection Hcall as <- <-. now split. }
  destruct Hshape as [Htask ->]. simpl.
  split; [reflexivity|]. split; [reflexivity|].
  split; [rewrite Htask; unfold new_task; now simplify_map_eq|].
  split; [rewrite Htask; unfold new_task; now simplify_map_eq|].
  split; [intros id' Hne; apply lookup_setitem_ne; congruence|].
  split; [apply setitem_fresh|].
  split; [intros old Hold; eapply keys_setitem_in, lookup_Some_keys; eassumption|].
  apply wf_setitem.
Qed.

Lemma create_task_store_witness :
  create_task 0 "b5c6d7e8" data_B store_A
  = (Ok {| cr_task := task_B;
           cr_conflicts := [descriptor "a1b2c3d4" task_A];
           cr_has_conflicts := true;
           cr_suggestion := Some (free_slot (2 * HOUR)) |}, store_AB)
  /\ tasks store_AB = PyDict.setitem "b5c6d7e8" task_B (tasks store_A).
Proof.
  assert (H : create_task 0 "b5c6d7e8" data_B store_A
              = (Ok {| cr_task := task_B;
                       cr_conflicts := [descriptor "a1b2c3d4" task_A];
                       cr_has_conflicts := true;
                       cr_suggestion := Some (free_slot (2 * HOUR)) |}, store_AB))
    by by_evaluation.
  split; [exact H|].
  exact (proj1 (create_task_store _ _ _ _ _ _ H)).
Defined.

Lemma create_task_shape now task_id (task_data : pydict) self self' r :
  create_task now task_id task_data self = (Ok r, self') ->
  exists score,
    calculate_priority_score now (new_task now task_id task_data) = Ok score
    /\ cr_task r = <["priority_score" := VNum score]>
                     (new_task now task_id task_data)
    /\ self' = set_tasks (PyDict.setitem task_id (cr_task r) (tasks self)) self
    /\ detect_conflicts now (cr_task r) self = Ok (cr_conflicts r)
    /\ cr_has_conflicts r = match cr_conflicts r with [] => false | _ => true end
    /\ match cr_conflicts r with
       | [] => cr_suggestion r = None
       | _ :: _ => exists s, cr_suggestion r = Some s
       end.
Proof.
  rewrite create_task_eq.
  destruct (calculate_priority_score _ _) as [score|]; [|discriminate].
  simpl. intros Hcall. exists score. split; [reflexivity|].
  destruct (detect_conflicts _ _ _) as [[|c cs]|] eqn:Hdet; [| |discriminate].
  - injection Hcall as <- <-. simpl. auto.
  - destruct (suggest_optimal_time _ _ _) as [s|]; [|discriminate].
    injection Hcall as <- <-. simpl. repeat split; eauto.
Qed.

(** X6. The task that [create_task] builds has exactly the eleven fields
    [id], [title], [description], [priority], [estimated_duration],
    [deadline], [scheduled_time], [status], [created_at], [tags] and
    [priority_score]: a request value for [title], [description],
    [priority], [estimated_duration], [deadline], [scheduled_time] or [tags]
    is taken over as it is, and any other key of the request is dropped. *)
Theorem create_task_fields (now : datetime) (task_id : string)
    (task_data : pydict) (self self' : TaskScheduler) (r : create_result)
    (Hcall : create_task now task_id task_data self = (Ok r, self')) :
  (forall k : string, is_Some (cr_task r !! k) <-> In k created_fields)
  /\ (forall (k : string) v, In k request_fields -> task_data !! k = Some v ->
        cr_task r !! k = Some v).
Proof.
  destruct (create_task_shape _ _ _ _ _ _ Hcall) as (score & _ & Htask & _).
  rewrite Htask. split.
  - intros k. unfold new_task, created_fields. split.
    + intros [v Hv].
      repeat (rewrite lookup_insert in Hv;
              destruct (decide _) as [<-|_] in Hv; [simpl; tauto|]).
      rewrite lookup_singleton in Hv.
      destruct (decide _) as [<-|_] in Hv; [simpl; tauto|discriminate].
    + simpl. intros Hk.
      repeat (destruct Hk as [<-|Hk]; [simplify_map_eq; eauto|]).
      destruct Hk.
  - intros k v Hk Hv.
    rewrite lookup_insert_ne.
    + now apply new_task_lookup.
    + intros <-. simpl in Hk.
      repeat (destruct Hk as [Hk|Hk]; [discriminate|]). destruct Hk.
Qed.

Lemma create_task_fields_witness :
  create_task 0 "a1b2c3d4" data_A init
  = (Ok {| cr_task := task_A; cr_conflicts := [];
           cr_has_conflicts := false; cr_suggestion := None |}, store_A)
  /\ (forall (k : string) v, In k request_fields -> data_A !! k = Some v ->
        task_A !! k = Some v).
Proof.
  assert (H : create_task 0 "a1b2c3d4" data_A init
              = (Ok {| cr_task := task_A; cr_conflicts := [];
                       cr_has_conflicts := false; cr_suggestion := None |},
                 store_A)) by by_evaluation.
  split; [exact H|].
  exact (proj2 (create_task_fields _ _ _ _ _ _ H)).
Defined.

(** X7. In the response of [create_task] the conflicts are those of the new
    task against the store as it was before the call: every reported id is
    the id of a task stored before, so a task created under a fresh id is
    never listed as a conflict of itself.  [has_conflicts] is true exactly
    when the list is not empty, and a suggestion is present exactly then. *)
Theorem create_task_response (now : datetime) (task_id : string)
    (task_data : pydict) (self self' : TaskScheduler) (r : create_result)
    (Hcall : create_task now task_id task_data self = (Ok r, self')) :
  detect_conflicts now (cr_task r) self = Ok (cr_conflicts r)
  /\ (forall c, In c (cr_conflicts r) ->
        In (c_task_id c) (PyDict.keys (tasks self)))
  /\ (PyDict.lookup task_id (tasks self) = None ->
      forall c, In c (cr_conflicts r) -> c_task_id c <> task_id)
  /\ (cr_has_conflicts r = true <-> cr_conflicts r <> [])
  /\ (is_Some (cr_suggestion r) <-> cr_conflicts r <> []).
Proof.
  destruct (create_task_shape _ _ _ _ _ _ Hcall)
    as (score & _ & _ & _ & Hdet & Hhas & Hsug).
  assert (Hids : forall c, In c (cr_conflicts r) ->
                   In (c_task_id c) (PyDict.keys (tasks self))).
  { intros c Hc. unfold detect_conflicts in Hdet.
    destruct (task_span now (cr_task r)) as [[a b]|]; [|discriminate].
    simpl in Hdet.
    destruct (detect_conflicts_loop_ids _ _ _ _ _ _ Hdet c Hc) as [[]|Hk].
    exact Hk. }
  split; [exact Hdet|]. split; [exact Hids|]. split.
  - intros Hfresh c Hc Heq. apply Hids in Hc. rewrite Heq in Hc.
    apply lookup_None_keys in Hfresh. contradiction.
  - destruct (cr_conflicts r) as [|c cs].
    + rewrite Hhas, Hsug. split; split; try congruence.
      intros [s Hs]. discriminate.
    + destruct Hsug as [s Hs]. rewrite Hhas, Hs. split; split; try discriminate; eauto.
Qed.

Lemma create_task_response_witness :
  create_task 0 "b5c6d7e8" data_B store_A
  = (Ok {| cr_task := task_B;
           cr_conflicts := [descriptor "a1b2c3d4" task_A];
           cr_has_conflicts := true;
           cr_suggestion := Some (free_slot (2 * HOUR)) |}, store_AB)
  /\ detect_conflicts 0 task_B store_A = Ok [descriptor "a1b2c3d4" task_A].
Proof.
  assert (H : create_task 0 "b5c6d7e8" data_B store_A
              = (Ok {| cr_task := task_B;
                       cr_conflicts := [descriptor "a1b2c3d4" task_A];
                       cr_has_conflicts := true;
                       cr_suggestion := Some (free_slot (2 * HOUR)) |}, store_AB))
    by by_evaluation.
  split; [exact H|].
  exact (proj1 (create_task_response _ _ _ _ _ _ H)).
Defined.

(** ** What [update_task] does to the store *)

(** X8. [update_task] answers [NotFound] exactly when the id is not in the
    store, and then changes nothing.  Whatever the outcome (updated, not
    found, or an exception), it neither adds nor removes a task, keeps the
    order of the ids, and leaves every task other than the addressed one as
    it was. *)
Theorem update_task_frame (now : datetime) (task_id : string)
    (updates : pydict) (self : TaskScheduler) :
  (fst (update_task now task_id updates self) = Ok NotFound
     <-> PyDict.lookup task_id (tasks self) = None)
  /\ (PyDict.lookup task_id (tasks self) = None ->
        update_task now task_id updates self = (Ok NotFound, self))
  /\ PyDict.keys (tasks (snd (update_task now task_id updates self)))
     = PyDict.keys (tasks self)
  /\ (forall id', id' <> task_id ->
        PyDict.lookup id' (tasks (snd (update_task now task_id updates self)))
        = PyDict.lookup id' (tasks self))
  /\ schedule (snd (update_task now task_id updates self)) = schedule self.
Proof.
  rewrite update_task_eq.
  destruct (PyDict.lookup task_id (tasks self)) as [task|] eqn:Hl.
  - assert (Hkeys : forall t : pydict,
              PyDict.keys (PyDict.setitem task_id t (tasks self))
              = PyDict.keys (tasks self))
      by (intros t; eapply keys_setitem_in, lookup_Some_keys; eassumption).
    simpl.
    destruct (calculate_priority_score now (update updates task)); simpl;
      (split; [split; discriminate|]); (split; [discriminate|]);
      (split; [apply Hkeys|]);
      (split; [intros id' Hne; apply lookup_setitem_ne; congruence|reflexivity]).
  - simpl. repeat split; reflexivity.
Qed.

(** X9. [update_task] is not all-or-nothing: when the score cannot be
    computed from the merged task (for instance the update carries a
    deadline that is not ISO text), the call raises, yet the caller's
    fields are already written into the stored task, while
    [priority_score] and [updated_at] keep their old values. *)
Theorem update_task_partial_on_error (now : datetime) (task_id : string)
    (updates : pydict) (self : TaskScheduler) (task : pydict) (e : exn)
    (Hstored : PyDict.lookup task_id (tasks self) = Some task)
    (Hscore : calculate_priority_score now (update updates task) = Raise e) :
  exists self',
    update_task now task_id updates self = (Raise e, self')
    /\ PyDict.lookup task_id (tasks self') = Some (update updates task)
    /\ (forall (k : string) v, updates !! k = Some v ->
          update updates task !! k = Some v)
    /\ (forall k : string, updates !! k = None ->
          update updates task !! k = task !! k).
Proof.
  rewrite update_task_eq, Hstored. simpl. rewrite Hscore.
  eexists. split; [reflexivity|]. simpl.
  split; [apply lookup_setitem_eq|]. unfold update. split.
  - intros k v Hk. now apply lookup_union_Some_l.
  - intros k Hk. now apply lookup_union_r.
Qed.

Lemma update_task_partial_on_error_witness :
  PyDict.lookup "a1b2c3d4" (tasks store_A) = Some task_A
  /\ calculate_priority_score DAY (update updates_bad_deadline task_A)
     = Raise ValueError
  /\ exists self',
       update_task DAY "a1b2c3d4" updates_bad_deadline store_A
       = (Raise ValueError, self')
       /\ PyDict.lookup "a1b2c3d4" (tasks self')
          = Some (update updates_bad_deadline task_A).
Proof.
  assert (Hs : calculate_priority_score DAY (update updates_bad_deadline task_A)
               = Raise ValueError) by by_evaluation.
  split; [exact store_A_lookup|]. split; [exact Hs|].
  destruct (update_task_partial_on_error DAY "a1b2c3d4" updates_bad_deadline
              store_A task_A ValueError store_A_lookup Hs)
    as (self' & Hu & Hl & _).
  exists self'. split; assumption.
Defined.

(** X10. [update_task] does not check [scheduled_time]: an update that
    sets it to text that is not ISO is stored and answered as a success
    (the score does not read that field).  From then on, as long as that
    task is not 'completed', every [create_task] raises and stores nothing,
    and every [suggest_optimal_time] with a deadline still ahead raises. *)
Theorem update_task_unreadable_schedule (now : datetime) (task_id : string)
    (updates : pydict) (self : TaskScheduler) (task : pydict) (text : string)
    (score : Q)
    (Hstored : PyDict.lookup task_id (tasks self) = Some task)
    (Htext : updates !! "scheduled_time" = Some (VStr text))
    (Hopen : not_completed (update updates task))
    (Hscore : calculate_priority_score now (update updates task) = Ok score) :
  exists task' self',
    update_task now task_id updates self = (Ok (Found task'), self')
    /\ task' !! "scheduled_time" = Some (VStr text)
    /\ (forall now' id' data, exists e,
          create_task now' id' data self' = (Raise e, self'))
    /\ (forall now' (candidate : pydict) d,
          get "deadline" (VTime (now' + 7 * DAY)) candidate = VTime d ->
          now' < d ->
          exists e, suggest_optimal_time now' candidate self' = Raise e).
Proof.
  rewrite update_task_eq, Hstored. simpl. rewrite Hscore.
  set (task' := <["updated_at" := VTime now]>
                  (<["priority_score" := VNum score]> (update updates task))).
  set (self' := set_tasks (PyDict.setitem task_id task' (tasks self)) self).
  assert (Hsched : task' !! "scheduled_time" = Some (VStr text)).
  { subst task'. rewrite !lookup_insert_ne by discriminate.
    unfold update. now apply lookup_union_Some_l. }
  assert (Hin : In (task_id, task') (tasks self'))
    by (apply lookup_In; simpl; apply lookup_setitem_eq).
  assert (Hnc : not_completed task').
  { unfold not_completed in *. subst task'.
    now rewrite !lookup_insert_ne by discriminate. }
  assert (Hbad : forall now', exists e0, task_span now' task' = Raise e0).
  { intros now'. unfold task_span, get. rewrite Hsched. simpl. eauto. }
  exists task', self'. split; [reflexivity|]. split; [exact Hsched|]. split.
  - intros now' id' data. rewrite create_task_eq.
    destruct (calculate_priority_score now' (new_task now' id' data)); [|eauto].
    simpl.
    destruct (detect_conflicts_raises now'
                (<["priority_score" := VNum a]> (new_task now' id' data))
                self' task_id task' Hin Hnc (Hbad now')) as [e' ->].
    eauto.
  - intros now' candidate d Hd Hahead.
    unfold suggest_optimal_time, suggest_scan. rewrite Hd. simpl.
    rewrite suggest_loop_unfold.
    apply Z.ltb_lt in Hahead. rewrite Hahead.
    destruct (detect_conflicts_raises now'
                (<["scheduled_time" := VTime now']> candidate)
                self' task_id task' Hin Hnc (Hbad now')) as [e' ->].
    simpl. eauto.
Qed.

Lemma update_task_unreadable_schedule_witness :
  PyDict.lookup "a1b2c3d4" (tasks store_A) = Some task_A
  /\ updates_bad_schedule !! "scheduled_time" = Some (VStr "noon")
  /\ not_completed (update updates_bad_schedule task_A)
  /\ calculate_priority_score DAY (update updates_bad_schedule task_A)
     = Ok (1450 # 100)%Q
  /\ exists task' self',
       update_task DAY "a1b2c3d4" updates_bad_schedule store_A
       = (Ok (Found task'), self')
       /\ exists e, create_task (2 * DAY) "b5c6d7e8" data_B self' = (Raise e, self').
Proof.
  assert (Ht : updates_bad_schedule !! "scheduled_time" = Some (VStr "noon"))
    by by_evaluation.
  assert (Hst : update updates_bad_schedule task_A !! "status"
                = Some (VStr "pending")) by by_evaluation.
  assert (Ho : not_completed (update updates_bad_schedule task_A))
    by (unfold not_completed; rewrite Hst; discriminate).
  assert (Hs : calculate_priority_score DAY (update updates_bad_schedule task_A)
               = Ok (1450 # 100)%Q) by by_evaluation.
  split; [exact store_A_lookup|]. split; [exact Ht|]. split; [exact Ho|].
  split; [exact Hs|].
  destruct (update_task_unreadable_schedule DAY "a1b2c3d4" updates_bad_schedule
              store_A task_A "noon" _ store_A_lookup Ht Ho Hs)
    as (task' & self' & Hu & _ & Hc & _).
  exists task', self'. split; [exact Hu|]. apply Hc.
Defined.

(** ** Composing operations *)

(** The score reads three fields of the task and nothing else. *)
Lemma calculate_priority_score_ext now (t1 t2 : pydict) :
  t1 !! "priority" = t2 !! "priority" ->
  t1 !! "deadline" = t2 !! "deadline" ->
  t1 !! "estimated_duration" = t2 !! "estimated_duration" ->
  calculate_priority_score now t1 = calculate_priority_score now t2.
Proof.
  intros Hp Hd Hm. unfold calculate_priority_score, get.
  now rewrite Hp, Hd, Hm.
Qed.

Lemma restamp_ext (m1 m2 : pydict) (a b : value) :
  (forall k : string, k <> "updated_at" -> k <> "priority_score" ->
     m1 !! k = m2 !! k) ->
  <["updated_at" := a]> (<["priority_score" := b]> m1)
  = <["updated_at" := a]> (<["priority_score" := b]> m2).
Proof.
  intros H. apply map_eq. intros k.
  destruct (decide (k = "updated_at")) as [->|H1];
    [now rewrite !lookup_insert_eq|].
  rewrite !(lookup_insert_ne _ "updated_at") by congruence.
  destruct (decide (k = "priority_score")) as [->|H2];
    [now rewrite !lookup_insert_eq|].
  rewrite !lookup_insert_ne by congruence. now apply H.
Qed.

Lemma update_after_update (u1 u2 task : pydict) (a b : value) (k : string) :
  k <> "updated_at" -> k <> "priority_score" ->
  update u2 (<["updated_at" := a]> (<["priority_score" := b]> (update u1 task))) !! k
  = update (update u2 u1) task !! k.
Proof.
  intros H1 H2. unfold update. rewrite !lookup_union.
  rewrite !lookup_insert_ne by congruence. rewrite lookup_union.
  destruct (u2 !! k), (u1 !! k), (task !! k); reflexivity.
Qed.

(** X11. Two updates in a row amount to one update with the merged field
    set: when the first update succeeds and the merged update can be
    scored, [update_task u2] after [update_task u1] returns the same task
    and leaves the same store as the single [update_task] with [u1]
    overwritten by [u2], made at the time of the second update. *)
Theorem update_task_compose (now1 now2 : datetime) (task_id : string)
    (u1 u2 : pydict) (self : TaskScheduler) (task : pydict) (s1 s2 : Q)
    (Hstored : PyDict.lookup task_id (tasks self) = Some task)
    (Hfirst : calculate_priority_score now1 (update u1 task) = Ok s1)
    (Hboth : calculate_priority_score now2 (update (update u2 u1) task) = Ok s2) :
  update_task now2 task_id u2 (snd (update_task now1 task_id u1 self))
  = update_task now2 task_id (update u2 u1) self.
Proof.
  rewrite (update_task_eq now1), Hstored. simpl. rewrite Hfirst. simpl.
  rewrite !update_task_eq. simpl.
  rewrite lookup_setitem_eq, Hstored. simpl.
  set (t1 := <["updated_at" := VTime now1]>
               (<["priority_score" := VNum s1]> (update u1 task))).
  assert (Hsame : calculate_priority_score now2 (update u2 t1) = Ok s2).
  { rewrite <- Hboth. subst t1.
    apply calculate_priority_score_ext; now apply update_after_update. }
  rewrite Hsame, Hboth. simpl.
  rewrite setitem_setitem. unfold set_tasks. simpl.
  rewrite (restamp_ext (update u2 t1) (update (update u2 u1) task)).
  - reflexivity.
  - intros k H1 H2. subst t1. now apply update_after_update.
Qed.

Lemma update_task_compose_witness :
  PyDict.lookup "a1b2c3d4" (tasks store_A) = Some task_A
  /\ calculate_priority_score DAY (update updates_priority_9 task_A)
     = Ok (2250 # 100)%Q
  /\ calculate_priority_score (2 * DAY)
       (update (update updates_in_progress updates_priority_9) task_A)
     = Ok (2350 # 100)%Q
  /\ update_task (2 * DAY) "a1b2c3d4" updates_in_progress
       (snd (update_task DAY "a1b2c3d4" updates_priority_9 store_A))
     = update_task (2 * DAY) "a1b2c3d4"
         (update updates_in_progress updates_priority_9) store_A.
Proof.
  assert (H1 : calculate_priority_score DAY (update updates_priority_9 task_A)
               = Ok (2250 # 100)%Q) by by_evaluation.
  assert (H2 : calculate_priority_score (2 * DAY)
                 (update (update updates_in_progress updates_priority_9) task_A)
               = Ok (2350 # 100)%Q) by by_evaluation.
  split; [exact store_A_lookup|]. split; [exact H1|]. split; [exact H2|].
  exact (update_task_compose DAY (2 * DAY) "a1b2c3d4" updates_priority_9
           updates_in_progress store_A task_A _ _ store_A_lookup H1 H2).
Defined.

Lemma remove_app_fresh {V : Type} (k : string) (v : V) (d : PyDict.t V) :
  PyDict.lookup k d = None -> PyDict.remove k (d ++ [(k, v)]) = d.
Proof.
  induction d as [|[k0 v0] d IH]; simpl.
  - intros _. now rewrite decide_True.
  - destruct (decide (k = k0)); [discriminate|].
    intros H. now rewrite IH.
Qed.

(** X12. Creating a task under an id that is not in the store and then
    deleting that id returns the created task and brings the scheduler back
    to exactly what it was before the creation. *)
Theorem create_then_delete (now : datetime) (task_id : string)
    (task_data : pydict) (self self' : TaskScheduler) (r : create_result)
    (Hfresh : PyDict.lookup task_id (tasks self) = None)
    (Hcall : create_task now task_id task_data self = (Ok r, self')) :
  delete_task task_id self' = (Ok (Found (cr_task r)), self).
Proof.
  destruct (create_task_shape _ _ _ _ _ _ Hcall) as (score & _ & _ & -> & _).
  rewrite delete_task_eq. simpl.
  rewrite lookup_setitem_eq. f_equal.
  unfold set_tasks. simpl.
  rewrite setitem_fresh, remove_app_fresh by assumption.
  now destruct self.
Qed.

Lemma create_then_delete_witness :
  PyDict.lookup "b5c6d7e8" (tasks store_A) = None
  /\ create_task 0 "b5c6d7e8" data_B store_A
     = (Ok {| cr_task := task_B;
              cr_conflicts := [descriptor "a1b2c3d4" task_A];
              cr_has_conflicts := true;
              cr_suggestion := Some (free_slot (2 * HOUR)) |}, store_AB)
  /\ delete_task "b5c6d7e8" store_AB = (Ok (Found task_B), store_A).
Proof.
  assert (Hf : PyDict.lookup "b5c6d7e8" (tasks store_A) = None) by by_evaluation.
  assert (H : create_task 0 "b5c6d7e8" data_B store_A
              = (Ok {| cr_task := task_B;
                       cr_conflicts := [descriptor "a1b2c3d4" task_A];
                       cr_has_conflicts := true;
                       cr_suggestion := Some (free_slot (2 * HOUR)) |}, store_AB))
    by by_evaluation.
  split; [exact Hf|]. split; [exact H|].
  exact (create_then_delete _ _ _ _ _ _ Hf H).
Defined.

(** ** The score grows with priority, duration and time *)










(** ** The summary of [get_schedule] *)

Lemma get_schedule_listable (fs : option filters) (self : TaskScheduler) :
  Forall listable (PyDict.values (tasks self)) ->
  exists sorted,
    get_schedule fs self
    = (Ok {| total_tasks := length sorted; sr_tasks := sorted;
             sr_summary := summary_of sorted |}, self)
    /\ Permutation sorted
         (List.filter (selects fs) (PyDict.values (tasks self))).
Proof.
  intros Hty.
  set (selected := List.filter (selects fs) (PyDict.values (tasks self))).
  set (keyed := map (fun x => (score x, x)) selected).
  assert (Hsel : Forall listable selected).
  { apply List.Forall_forall. intros x Hx. apply filter_In in Hx as [Hx _].
    rewrite List.Forall_forall in Hty. now apply Hty. }
  assert (Hperm : Permutation (map snd (sort_desc keyed)) selected).
  { rewrite (sort_desc_perm keyed). unfold keyed.
    rewrite map_map. simpl. now rewrite map_id. }
  exists (map snd (sort_desc keyed)). split; [|exact Hperm].
  unfold get_schedule. unfold_M.
  rewrite (apply_filters_ok fs _ Hty). simpl. fold selected.
  rewrite (mapM_ok _ (fun x => (score x, x)) selected).
  2: { intros x Hx. rewrite List.Forall_forall in Hsel.
       now rewrite (listable_score x (Hsel x Hx)). }
  simpl. fold keyed.
  rewrite summarize_ok; [reflexivity|].
  apply List.Forall_forall. intros x Hx.
  rewrite List.Forall_forall in Hsel. apply Hsel.
  eapply Permutation_in; eassumption.
Qed.

Lemma priority_buckets_partition (l : list pydict) :
  (length (List.filter (fun t => Qle_bool 8 (priority t)) l)
   + length (List.filter (fun t => Qle_bool 4 (priority t)
                                   && negb (Qle_bool 8 (priority t))) l)
   + length (List.filter (fun t => negb (Qle_bool 4 (priority t))) l)
   = length l)%nat.
Proof.
  induction l as [|t l IH]; simpl; [reflexivity|].
  destruct (Qle_bool 8 (priority t)) eqn:H8.
  - assert (H4 : Qle_bool 4 (priority t) = true).
    { apply Qle_bool_iff. apply Qle_bool_iff in H8.
      eapply Qle_trans; [|exact H8]. discriminate. }
    rewrite H4. simpl. lia.
  - destruct (Qle_bool 4 (priority t)); simpl; lia.
Qed.

Lemma status_counts_bound (l : list pydict) :
  (length (List.filter (has_status "pending") l)
   + length (List.filter (has_status "in_progress") l)
   + length (List.filter (has_status "completed") l)
   <= length l)%nat.
Proof.
  induction l as [|t l IH]; simpl; [lia|].
  destruct (has_status "pending" t) eqn:H1;
    destruct (has_status "in_progress" t) eqn:H2;
    destruct (has_status "completed" t) eqn:H3; simpl; try lia; exfalso;
    repeat match goal with
           | H : has_status _ t = true |- _ => apply has_status_true in H
           end; congruence.
Qed.

(** X14. In the result of [get_schedule] on a store of listable tasks the
    three priority buckets of the summary split the returned tasks: high,
    medium and low add up to [total_tasks].  The three status counts add up
    to at most [total_tasks] (a task whose status is none of the three is
    counted in no status).  [total_tasks] is at most the number of stored
    tasks, and equal to it when no filters are given. *)
Theorem get_schedule_summary_counts (fs : option filters) (self : TaskScheduler)
    (Hty : Forall listable (PyDict.values (tasks self))) :
  exists r,
    get_schedule fs self = (Ok r, self)
    /\ (high_priority (sr_summary r) + medium_priority (sr_summary r)
        + low_priority (sr_summary r) = total_tasks r)%nat
    /\ (pending (sr_summary r) + in_progress (sr_summary r)
        + completed (sr_summary r) <= total_tasks r)%nat
    /\ (total_tasks r <= length (tasks self))%nat
    /\ (fs = None -> total_tasks r = length (tasks self)).
Proof.
  destruct (get_schedule_listable fs self Hty) as (sorted & Hrun & Hperm).
  eexists. split; [exact Hrun|]. simpl.
  split; [apply priority_buckets_partition|].
  split; [apply status_counts_bound|].
  rewrite (Permutation_length Hperm).
  assert (Hlen : length (PyDict.values (tasks self)) = length (tasks self))
    by apply length_map.
  split.
  - rewrite <- Hlen. apply filter_length_le.
  - intros ->. simpl. now rewrite filter_true.
Qed.

Lemma get_schedule_summary_counts_witness :
  Forall listable (PyDict.values (tasks store_AB))
  /\ exists r,
       get_schedule (Some filters_pending_5) store_AB = (Ok r, store_AB)
       /\ (high_priority (sr_summary r) + medium_priority (sr_summary r)
           + low_priority (sr_summary r) = total_tasks r)%nat.
Proof.
  split; [exact store_AB_listable|].
  destruct (get_schedule_summary_counts (Some filters_pending_5) store_AB
              store_AB_listable) as (r & Hr & Hsum & _).
  exists r. split; assumption.
Defined.

(** ** The routes *)

Lemma guarded_snd {A : Type} (code : Z) (m : M A) (self : TaskScheduler) :
  snd (Routes.guarded code m self) = snd (m self).
Proof. unfold Routes.guarded. now destruct (m self) as [[a|e] s]. Qed.

Lemma guarded_reply_snd (m : M reply) (self : TaskScheduler) :
  snd (Routes.guarded_reply m self) = snd (m self).
Proof. unfold Routes.guarded_reply. now destruct (m self) as [[[|t]|e] s]. Qed.

Lemma get_schedule_snd (fs : option filters) (self : TaskScheduler) :
  snd (get_schedule fs self) = self.
Proof.
  unfold get_schedule. unfold_M.
  destruct (apply_filters fs _); simpl; [|reflexivity].
  destruct (mapM _ _); simpl; [|reflexivity].
  destruct (summarize _); reflexivity.
Qed.

(** X15. [GET /tasks] without query parameters answers what [GET /schedule]
    answers, on every store; so does [GET /tasks] with an empty [status]
    and with [priority_min=0]. *)
Theorem list_tasks_default_is_schedule (status : option string)
    (priority_min : option (option Z)) (self : TaskScheduler)
    (Hstatus : status = None \/ status = Some ""%string)
    (Hmin : priority_min = None \/ priority_min = Some (Some 0)) :
  Routes.list_tasks status priority_min self = Routes.get_schedule self.
Proof.
  assert (H : forall f, truthy_status f = None -> truthy_priority_min f = None ->
                Routes.guarded 200 (get_schedule (Some f)) self
                = Routes.get_schedule self).
  { intros f Hs Hp. unfold Routes.get_schedule, Routes.guarded, get_schedule.
    unfold_M. rewrite Hs. simpl. rewrite Hp. reflexivity. }
  unfold Routes.list_tasks.
  destruct Hmin as [->| ->]; apply H; try reflexivity;
    destruct Hstatus as [->| ->]; reflexivity.
Qed.

Lemma list_tasks_default_is_schedule_witness :
  Routes.list_tasks None None store_AB = Routes.get_schedule store_AB.
Proof.
  exact (list_tasks_default_is_schedule None None store_AB
           (or_introl eq_refl) (or_introl eq_refl)).
Defined.

(** X16. The three routes that address a task by id answer 404 exactly
    when the id is not in the store, and a 404 leaves the store as it was.
    [GET] and [DELETE] then answer 200 with the stored task, and never 500;
    [PUT] answers 200 or, when the merged task cannot be scored, 500. *)
Theorem id_routes_status (now : datetime) (task_id : string) (data : pydict)
    (self : TaskScheduler) :
  (PyDict.lookup task_id (tasks self) = None ->
     Routes.get_task task_id self = ((404, TaskNotFound), self)
     /\ Routes.delete_task task_id self = ((404, TaskNotFound), self)
     /\ Routes.update_task now task_id data self = ((404, TaskNotFound), self))
  /\ (forall task, PyDict.lookup task_id (tasks self) = Some task ->
        Routes.get_task task_id self = ((200, Json task), self)
        /\ fst (Routes.delete_task task_id self) = (200, Json task)
        /\ (fst (fst (Routes.update_task now task_id data self)) = 200
            \/ fst (fst (Routes.update_task now task_id data self)) = 500)).
Proof.
  unfold Routes.get_task, Routes.delete_task, Routes.update_task,
    Routes.guarded_reply.
  rewrite delete_task_eq, update_task_eq.
  split.
  - intros ->. repeat split; reflexivity.
  - intros task ->. split; [reflexivity|]. split; [reflexivity|].
    simpl. destruct (calculate_priority_score now (update data task)); simpl; auto.
Qed.

Lemma id_routes_status_witness :
  Routes.get_task "a1b2c3d4" store_A = ((200, Json task_A), store_A)
  /\ Routes.get_task "b5c6d7e8" store_A = ((404, TaskNotFound), store_A).
Proof.
  assert (Hn : PyDict.lookup "b5c6d7e8" (tasks store_A) = None) by by_evaluation.
  split.
  - exact (proj1 (proj2 (id_routes_status 0 "a1b2c3d4" ∅ store_A) task_A
                    store_A_lookup)).
  - exact (proj1 (proj1 (id_routes_status 0 "b5c6d7e8" ∅ store_A) Hn)).
Defined.

(** X17. [POST /tasks] answers 201 for every request that can be scored,
    whose deadline and scheduled time are ISO text without UTC offset (each
    possibly absent) and whose duration is a whole number of minutes, on a
    store whose unfinished tasks have a readable interval, provided that
    the task stays within the calendar where it is scheduled and in every
    slot from now up to its deadline; conflicts do not turn the answer into
    an error.  The task in the body is then the task stored under the new
    id. *)
Theorem post_task_created (now : datetime) (task_id : string) (data : pydict)
    (self : TaskScheduler) (score : Q) (d st : datetime) (minutes : Z)
    (Hscore : calculate_priority_score now (new_task now task_id data) = Ok score)
    (Hd : get "deadline" (VTime (now + 7 * DAY)) data = VTime d)
    (Hst : get "scheduled_time" (VTime now) data = VTime st)
    (Hm : whole_minutes (get "estimated_duration" (VNum 60) data) minutes)
    (Hstart : in_calendar st)
    (Hend : in_calendar (st + minutes * MINUTE))
    (Hnow : 0 <= now)
    (Hlo : 0 <= now + minutes * MINUTE)
    (Hhi : d + HOUR + Z.max 0 (minutes * MINUTE) <= MAX_DATETIME)
    (Hstore : forall id t, In (id, t) (tasks self) -> not_completed t ->
                exists iv, task_interval now t = Ok iv) :
  exists r self',
    Routes.create_task now task_id data self = ((201, Json r), self')
    /\ Routes.get_task task_id self' = ((200, Json (cr_task r)), self').
Proof.
  destruct (create_task_returns now task_id data self score d st minutes
              Hscore Hd Hst Hm Hstart Hend Hnow Hlo Hhi Hstore)
    as (r & self' & Hcall).
  exists r, self'. unfold Routes.create_task, Routes.guarded. rewrite Hcall.
  split; [reflexivity|].
  destruct (create_task_shape _ _ _ _ _ _ Hcall) as (score' & _ & _ & -> & _).
  unfold Routes.get_task. simpl. now rewrite lookup_setitem_eq.
Qed.

Lemma post_task_created_witness :
  calculate_priority_score 0 (new_task 0 "b5c6d7e8" data_B) = Ok (1750 # 100)%Q
  /\ get "deadline" (VTime (0 + 7 * DAY)) data_B = VTime (7 * DAY)
  /\ get "scheduled_time" (VTime 0) data_B = VTime (30 * MINUTE)
  /\ whole_minutes (get "estimated_duration" (VNum 60) data_B) 60
  /\ in_calendar (30 * MINUTE) /\ in_calendar (30 * MINUTE + 60 * MINUTE)
  /\ 0 <= 0 /\ 0 <= 0 + 60 * MINUTE
  /\ 7 * DAY + HOUR + Z.max 0 (60 * MINUTE) <= MAX_DATETIME
  /\ (forall id t, In (id, t) (tasks store_A) -> not_completed t ->
        exists iv, task_interval 0 t = Ok iv)
  /\ exists r self',
       Routes.create_task 0 "b5c6d7e8" data_B store_A = ((201, Json r), self').
Proof.
  assert (Hs : calculate_priority_score 0 (new_task 0 "b5c6d7e8" data_B)
               = Ok (1750 # 100)%Q) by by_evaluation.
  assert (Hd : get "deadline" (VTime (0 + 7 * DAY)) data_B = VTime (7 * DAY))
    by by_evaluation.
  assert (Hst : get "scheduled_time" (VTime 0) data_B = VTime (30 * MINUTE))
    by by_evaluation.
  assert (Hm : whole_minutes (get "estimated_duration" (VNum 60) data_B) 60).
  { assert (H : get "estimated_duration" (VNum 60) data_B = VNum 60)
      by by_evaluation.
    rewrite H. exact whole_minutes_60. }
  assert (Hnow : 0 <= 0) by reflexivity.
  assert (Hlo : 0 <= 0 + 60 * MINUTE) by (unfold MINUTE; lia).
  assert (Hhi : 7 * DAY + HOUR + Z.max 0 (60 * MINUTE) <= MAX_DATETIME)
    by (unfold MAX_DATETIME, DAY, HOUR, MINUTE; lia).
  split; [exact Hs|]. split; [exact Hd|]. split; [exact Hst|].
  split; [exact Hm|]. split; [exact in_calendar_30|].
  split; [exact in_calendar_90|]. split; [exact Hnow|]. split; [exact Hlo|].
  split; [exact Hhi|]. split; [exact store_A_timed|].
  destruct (post_task_created 0 "b5c6d7e8" data_B store_A _ _ _ _
              Hs Hd Hst Hm in_calendar_30 in_calendar_90 Hnow Hlo Hhi
              store_A_timed) as (r & self' & Hc & _).
  exists r, self'. exact Hc.
Defined.

(** ** Invariants of the service *)

Lemma serve_invariant (self : TaskScheduler) (rq : request) :
  PyDict.wf (tasks self) /\ stored_complete self /\ schedule self = [] ->
  PyDict.wf (tasks (serve self rq)) /\ stored_complete (serve self rq)
  /\ schedule (serve self rq) = [].
Proof.
  intros (Hwf & Hall & Hsch). destruct rq; simpl.
  - (* POST /tasks *)
    unfold Routes.create_task. rewrite guarded_snd, create_task_eq.
    destruct (calculate_priority_score now (new_task now task_id data))
      as [score|e]; [|simpl; auto].
    cbv beta zeta.
    set (task := <["priority_score" := VNum score]> (new_task now task_id data)).
    assert (Hstored : PyDict.wf (PyDict.setitem task_id task (tasks self))
                      /\ stored_complete
                           (set_tasks (PyDict.setitem task_id task (tasks self)) self)).
    { split; [now apply wf_setitem|].
      intros id t Hin k Hk. simpl in Hin.
      apply In_setitem in Hin as [[= -> ->]|Hin]; [|eapply Hall; eassumption].
      subst task. unfold new_task. simpl in Hk.
      repeat (destruct Hk as [<-|Hk]; [simplify_map_eq; eauto|]).
      destruct Hk. }
    destruct Hstored as [Hwf' Hall'].
    destruct (detect_conflicts now task self) as [[|c cs]|e]; [| |simpl; auto].
    + simpl. auto.
    + destruct (suggest_optimal_time now task _); simpl; auto.
  - (* GET /tasks *)
    unfold Routes.list_tasks.
    destruct priority_min as [[n|]|]; [| simpl; auto |];
      rewrite guarded_snd, get_schedule_snd; auto.
  - (* GET /tasks/<id> *)
    unfold Routes.get_task.
    destruct (PyDict.lookup task_id (tasks self)); simpl; auto.
  - (* PUT /tasks/<id> *)
    unfold Routes.update_task. rewrite guarded_reply_snd, update_task_eq.
    destruct (PyDict.lookup task_id (tasks self)) as [task|] eqn:Hl;
      [|simpl; auto].
    assert (Hold : forall k, In k created_fields -> is_Some (task !! k))
      by (eapply Hall, lookup_In; eassumption).
    assert (Hmerged : forall k, In k created_fields ->
                        is_Some (update data task !! k)).
    { intros k Hk. unfold update. apply lookup_union_is_Some. right. auto. }
    simpl.
    destruct (calculate_priority_score now (update data task)) as [score|e];
      simpl; (split; [now apply wf_setitem|]); (split; [|exact Hsch]);
      intros id t Hin k Hk;
      (apply In_setitem in Hin as [[= -> ->]|Hin];
       [|eapply Hall; eassumption]).
    + rewrite !lookup_insert_is_Some'. auto.
    + auto.
  - (* DELETE /tasks/<id> *)
    unfold Routes.delete_task. rewrite guarded_reply_snd, delete_task_eq.
    destruct (PyDict.lookup task_id (tasks self)); simpl; [|auto].
    split; [now apply wf_remove|]. split; [|exact Hsch].
    intros id t Hin. simpl in Hin. apply In_remove in Hin.
    now apply (Hall id t).
  - (* GET /schedule *)
    unfold Routes.get_schedule. rewrite guarded_snd, get_schedule_snd. auto.
  - (* POST /suggest *)
    unfold Routes.suggest_time. rewrite guarded_snd. unfold reads. simpl. auto.
Qed.

(** A request that does not name the field [id] in a [PUT] body leaves the
    [id] field of every stored task equal to the key of the task. *)
Lemma serve_ids (self : TaskScheduler) (rq : request) :
  ids_match self -> keeps_ids rq -> ids_match (serve self rq).
Proof.
  intros Hids Hrq. destruct rq; simpl.
  - (* POST /tasks *)
    unfold Routes.create_task. rewrite guarded_snd, create_task_eq.
    destruct (calculate_priority_score now (new_task now task_id data))
      as [score|e]; [|exact Hids].
    cbv beta zeta.
    set (task := <["priority_score" := VNum score]> (new_task now task_id data)).
    assert (Hstored : ids_match
                        (set_tasks (PyDict.setitem task_id task (tasks self)) self)).
    { intros id t Hin. simpl in Hin.
      apply In_setitem in Hin as [[= -> ->]|Hin]; [|now apply Hids].
      subst task. unfold new_task. now simplify_map_eq. }
    destruct (detect_conflicts now task self) as [[|c cs]|e]; [| |exact Hids].
    + exact Hstored.
    + destruct (suggest_optimal_time now task _); exact Hstored.
  - (* GET /tasks *)
    unfold Routes.list_tasks.
    destruct priority_min as [[n|]|]; [| exact Hids |];
      now rewrite guarded_snd, get_schedule_snd.
  - (* GET /tasks/<id> *)
    unfold Routes.get_task.
    destruct (PyDict.lookup task_id (tasks self)); exact Hids.
  - (* PUT /tasks/<id> *)
    simpl in Hrq.
    unfold Routes.update_task. rewrite guarded_reply_snd, update_task_eq.
    destruct (PyDict.lookup task_id (tasks self)) as [task|] eqn:Hl;
      [|exact Hids].
    assert (Hold : update data task !! "id" = Some (VStr task_id)).
    { unfold update. rewrite lookup_union_r by assumption.
      eapply Hids, lookup_In. eassumption. }
    simpl.
    destruct (calculate_priority_score now (update data task)) as [score|e];
      simpl; intros id t Hin; simpl in Hin;
      (apply In_setitem in Hin as [[= -> ->]|Hin]; [|now apply Hids]).
    + now rewrite !lookup_insert_ne by discriminate.
    + exact Hold.
  - (* DELETE /tasks/<id> *)
    unfold Routes.delete_task. rewrite guarded_reply_snd, delete_task_eq.
    destruct (PyDict.lookup task_id (tasks self)); [|exact Hids].
    intros id t Hin. simpl in Hin. apply In_remove in Hin. now apply Hids.
  - (* GET /schedule *)
    unfold Routes.get_schedule. now rewrite guarded_snd, get_schedule_snd.
  - (* POST /suggest *)
    unfold Routes.suggest_time. rewrite guarded_snd. exact Hids.
Qed.

(** X18. Whatever requests the service has served since it started, every
    stored task has all eleven fields that [create_task] gives a task (no
    request removes a field), [schedule] is still empty, and the keys of
    the store are pairwise distinct.  As long as no [PUT] body has named
    the field [id], the [id] field of every stored task is the key the task
    is filed under, so that no two stored tasks carry the same [id]
    field. *)
Theorem service_invariant (rqs : list request) :
  PyDict.wf (tasks (serve_all rqs))
  /\ (forall id t, In (id, t) (tasks (serve_all rqs)) ->
        forall k, In k created_fields -> is_Some (t !! k))
  /\ schedule (serve_all rqs) = []
  /\ (Forall keeps_ids rqs ->
      (forall id t, In (id, t) (tasks (serve_all rqs)) ->
         t !! "id" = Some (VStr id))
      /\ (forall id1 t1 id2 t2,
            In (id1, t1) (tasks (serve_all rqs)) ->
            In (id2, t2) (tasks (serve_all rqs)) ->
            t1 !! "id" = t2 !! "id" -> id1 = id2 /\ t1 = t2)).
Proof.
  unfold serve_all.
  assert (H : forall self,
            PyDict.wf (tasks self) /\ stored_complete self /\ schedule self = [] ->
            PyDict.wf (tasks (fold_left serve rqs self))
            /\ stored_complete (fold_left serve rqs self)
            /\ schedule (fold_left serve rqs self) = []).
  { induction rqs as [|rq rqs IH]; intros self Hinv; simpl; [exact Hinv|].
    apply IH. now apply serve_invariant. }
  assert (Hids : forall self, ids_match self -> Forall keeps_ids rqs ->
                   ids_match (fold_left serve rqs self)).
  { clear H.
    induction rqs as [|rq rqs IH]; intros self Hself Hrqs; simpl; [exact Hself|].
    inversion Hrqs as [|? ? Hrq Hrqs']; subst.
    apply IH; [now apply serve_ids|assumption]. }
  destruct (H init) as (Hwf & Hall & Hsch).
  { split; [constructor|]. split; [intros id t []|reflexivity]. }
  split; [exact Hwf|]. split; [exact Hall|]. split; [exact Hsch|].
  intros Hrqs.
  assert (Hmatch : ids_match (fold_left serve rqs init))
    by (apply Hids; [intros id t []|assumption]).
  split; [exact Hmatch|].
  intros id1 t1 id2 t2 H1 H2 Heq.
  rewrite (Hmatch _ _ H1), (Hmatch _ _ H2) in Heq. injection Heq as ->.
  split; [reflexivity|].
  apply (In_lookup _ _ _ Hwf) in H1, H2. congruence.
Qed.

Lemma service_invariant_witness :
  Forall keeps_ids [PostTask 0 "a1b2c3d4" data_A; PostTask 0 "b5c6d7e8" data_B;
                    PutTask DAY "a1b2c3d4" updates_priority_9]
  /\ forall id t,
       In (id, t)
          (tasks (serve_all [PostTask 0 "a1b2c3d4" data_A;
                             PostTask 0 "b5c6d7e8" data_B;
                             PutTask DAY "a1b2c3d4" updates_priority_9])) ->
       t !! "id" = Some (VStr id).
Proof.
  assert (Hput : updates_priority_9 !! "id" = None) by by_evaluation.
  assert (Hrqs : Forall keeps_ids
                   [PostTask 0 "a1b2c3d4" data_A; PostTask 0 "b5c6d7e8" data_B;
                    PutTask DAY "a1b2c3d4" updates_priority_9])
    by (repeat constructor; exact Hput).
  split; [exact Hrqs|].
  exact (proj1 (proj2 (proj2 (proj2 (service_invariant _))) Hrqs)).
Defined.

(** ** Ties in the listing keep the store order *)

Lemma insert_desc_same_key {A : Type} (q : Q) (x : Q * A) (l : list (Q * A)) :
  Qeq_bool (fst x) q = true ->
  List.filter (fun y => Qeq_bool (fst y) q) (insert_desc x l)
  = x :: List.filter (fun y => Qeq_bool (fst y) q) l.
Proof.
  intros Hx. induction l as [|y l IH]; simpl.
  - now rewrite Hx.
  - destruct (Qle_bool (fst y) (fst x)) eqn:Hle; simpl.
    + now rewrite Hx.
    + assert (Hy : Qeq_bool (fst y) q = false).
      { destruct (Qeq_bool (fst y) q) eqn:Hy; [|reflexivity].
        apply Qeq_bool_iff in Hx, Hy.
        assert (Hle' : Qle_bool (fst y) (fst x) = true)
          by (apply Qle_bool_iff; rewrite Hx, Hy; apply Qle_refl).
        congruence. }
      rewrite Hy. exact IH.
Qed.

Lemma insert_desc_other_key {A : Type} (q : Q) (x : Q * A) (l : list (Q * A)) :
  Qeq_bool (fst x) q = false ->
  List.filter (fun y => Qeq_bool (fst y) q) (insert_desc x l)
  = List.filter (fun y => Qeq_bool (fst y) q) l.
Proof.
  intros Hx. induction l as [|y l IH]; simpl.
  - now rewrite Hx.
  - destruct (Qle_bool (fst y) (fst x)); simpl.
    + now rewrite Hx.
    + now rewrite IH.
Qed.

Lemma sort_desc_stable {A : Type} (q : Q) (l : list (Q * A)) :
  List.filter (fun y => Qeq_bool (fst y) q) (sort_desc l)
  = List.filter (fun y => Qeq_bool (fst y) q) l.
Proof.
  induction l as [|x l IH]; simpl; [reflexivity|].
  destruct (Qeq_bool (fst x) q) eqn:Hx.
  - rewrite insert_desc_same_key by assumption. now rewrite IH.
  - rewrite insert_desc_other_key by assumption. exact IH.
Qed.

Lemma with_score_keyed (q : Q) (l : list (Q * pydict)) :
  Forall (fun kx => fst kx = score (snd kx)) l ->
  with_score q (map snd l)
  = map snd (List.filter (fun y => Qeq_bool (fst y) q) l).
Proof.
  induction 1 as [|kx l Hkx Hl IH]; simpl; [reflexivity|].
  rewrite <- Hkx. destruct (Qeq_bool (fst kx) q); simpl; now rewrite IH.
Qed.

(** X19. The listing is stable: among the returned tasks, those with one
    and the same [priority_score] appear in the order in which the store
    holds them, that is, in the order of their creation. *)
Theorem get_schedule_stable (fs : option filters) (self : TaskScheduler)
    (q : Q)
    (Hty : Forall listable (PyDict.values (tasks self))) :
  exists r,
    get_schedule fs self = (Ok r, self)
    /\ with_score q (sr_tasks r)
       = with_score q (List.filter (selects fs) (PyDict.values (tasks self))).
Proof.
  set (selected := List.filter (selects fs) (PyDict.values (tasks self))).
  set (keyed := map (fun x => (score x, x)) selected).
  assert (Hsel : Forall listable selected).
  { apply List.Forall_forall. intros x Hx. apply filter_In in Hx as [Hx _].
    rewrite List.Forall_forall in Hty. now apply Hty. }
  assert (Hkeys : forall l : list (Q * pydict),
            (forall kx, In kx l -> In kx keyed) ->
            Forall (fun kx => fst kx = score (snd kx)) l).
  { intros l Hl. apply List.Forall_forall. intros kx Hkx.
    apply Hl in Hkx. unfold keyed in Hkx.
    apply in_map_iff in Hkx as (x & <- & _). reflexivity. }
  exists {| total_tasks := length (map snd (sort_desc keyed));
            sr_tasks := map snd (sort_desc keyed);
            sr_summary := summary_of (map snd (sort_desc keyed)) |}.
  split.
  - unfold get_schedule. unfold_M.
    rewrite (apply_filters_ok fs _ Hty). simpl. fold selected.
    rewrite (mapM_ok _ (fun x => (score x, x)) selected).
    2: { intros x Hx. rewrite List.Forall_forall in Hsel.
         now rewrite (listable_score x (Hsel x Hx)). }
    simpl. fold keyed.
    rewrite summarize_ok; [reflexivity|].
    apply List.Forall_forall. intros x Hx.
    apply in_map_iff in Hx as (kx & <- & Hkx).
    apply (Permutation_in _ (sort_desc_perm keyed)) in Hkx.
    unfold keyed in Hkx. apply in_map_iff in Hkx as (x & <- & Hx).
    rewrite List.Forall_forall in Hsel. now apply Hsel.
  - simpl. rewrite with_score_keyed.
    + rewrite sort_desc_stable. rewrite <- with_score_keyed by now apply Hkeys.
      unfold keyed. rewrite map_map. simpl. now rewrite map_id.
    + apply Hkeys. intros kx.
      apply (Permutation_in _ (sort_desc_perm keyed)).
Qed.

Lemma store_ABC_tasks :
  tasks store_ABC
  = [("a1b2c3d4"%string, task_A); ("b5c6d7e8"%string, task_B);
     ("d00dfeed"%string, task_C)].
Proof. by_evaluation. Qed.

Lemma task_C_listable : listable task_C.
Proof.
  split; [exists (VStr "pending")|split; [exists 5%Q|exists (1350 # 100)%Q]];
    by_evaluation.
Defined.

Lemma store_ABC_listable : Forall listable (PyDict.values (tasks store_ABC)).
Proof.
  rewrite store_ABC_tasks. simpl.
  constructor; [exact task_A_listable|].
  constructor; [exact task_B_listable|].
  constructor; [exact task_C_listable|constructor].
Defined.

(** Tasks A and C have the same score and task B, created between them,
    a higher one: the listing puts B first and keeps A before C. *)
Lemma get_schedule_stable_witness :
  Forall listable (PyDict.values (tasks store_ABC))
  /\ score task_A = score task_C
  /\ get_schedule None store_ABC
     = (Ok {| total_tasks := 3; sr_tasks := [task_B; task_A; task_C];
              sr_summary := three_medium_pending |}, store_ABC)
  /\ exists r,
       get_schedule None store_ABC = (Ok r, store_ABC)
       /\ with_score (1350 # 100) (sr_tasks r) = [task_A; task_C].
Proof.
  split; [exact store_ABC_listable|].
  split; [by_evaluation|]. split; [by_evaluation|].
  destruct (get_schedule_stable None store_ABC (1350 # 100) store_ABC_listable)
    as (r & Hr & Hs).
  exists r. split; [exact Hr|]. rewrite Hs. by_evaluation.
Defined.

(** ** Where the engine raises *)

(** X20. [calculate_priority_score] returns only if, after the defaults,
    the deadline is ISO text without UTC offset and the priority and the
    duration are numbers.  A deadline given as text that [fromisoformat]
    rejects raises [ValueError] whatever the other fields are.  A deadline
    that is not text, a deadline with a UTC offset (the naive current time
    is subtracted from it) and, under a readable deadline, a priority or a
    duration that is not a number raise [TypeError]. *)
Theorem calculate_priority_score_domain (now : datetime) (task : pydict) :
  (forall s, calculate_priority_score now task = Ok s ->
     exists d p m,
       get "deadline" (VTime now) task = VTime d
       /\ get "priority" (VNum 5) task = VNum p
       /\ get "estimated_duration" (VNum 60) task = VNum m)
  /\ (forall text, get "deadline" (VTime now) task = VStr text ->
        calculate_priority_score now task = Raise ValueError)
  /\ (is_date (get "deadline" (VTime now) task) = false ->
      (forall text, get "deadline" (VTime now) task <> VStr text) ->
      calculate_priority_score now task = Raise TypeError)
  /\ (forall d o, get "deadline" (VTime now) task = VTimeTz d o ->
        calculate_priority_score now task = Raise TypeError)
  /\ (forall d, get "deadline" (VTime now) task = VTime d ->
        is_number (get "priority" (VNum 5) task) = false
        \/ is_number (get "estimated_duration" (VNum 60) task) = false ->
        calculate_priority_score now task = Raise TypeError).
Proof.
  unfold calculate_priority_score.
  split; [|split; [|split; [|split]]].
  - intros s.
    destruct (get "deadline" (VTime now) task); simpl; try discriminate.
    destruct (get "estimated_duration" (VNum 60) task); simpl; try discriminate.
    destruct (get "priority" (VNum 5) task); simpl; try discriminate.
    intros _. do 3 eexists. repeat split.
  - intros text ->. reflexivity.
  - intros Hd Hnostr.
    destruct (get "deadline" (VTime now) task) as [| | text | | |]; simpl in *;
      try discriminate; try reflexivity.
    now destruct (Hnostr text).
  - intros d o ->. reflexivity.
  - intros d -> [Hp|Hm]; simpl.
    + destruct (get "estimated_duration" (VNum 60) task); simpl;
        try reflexivity.
      destruct (get "priority" (VNum 5) task); simpl in *;
        try discriminate; reflexivity.
    + destruct (get "estimated_duration" (VNum 60) task); simpl in *;
        try discriminate; reflexivity.
Qed.

Lemma detect_conflicts_loop_without_completed now a b items acc :
  detect_conflicts_loop now a b
    (List.filter (fun it => negb (is_completed (snd it))) items) acc
  = detect_conflicts_loop now a b items acc.
Proof.
  revert acc. induction items as [|[id t] items IH]; intros acc; simpl.
  - reflexivity.
  - destruct (is_completed t) eqn:Hc; simpl; [apply IH|].
    rewrite Hc.
    destruct (task_span now t) as [[a0 b0]|]; simpl; [|reflexivity].
    destruct (overlap a b a0 b0) as [[|]|]; simpl; [apply IH|apply IH|reflexivity].
Qed.

(** What a task whose interval can be computed has in its fields. *)
Lemma task_span_fields now (task : pydict) (a b : pydatetime) :
  task_span now task = Ok (a, b) ->
  is_date (get "scheduled_time" (VTime now) task) = true
  /\ is_number (get "estimated_duration" (VNum 60) task) = true
  /\ (is_Some (utcoffset a) <-> has_offset now task = true).
Proof.
  unfold task_span, has_offset.
  destruct (get "scheduled_time" (VTime now) task); simpl; try discriminate;
    (destruct (get "estimated_duration" (VNum 60) task); simpl;
     try discriminate);
    (destruct (timedelta_minutes _) as [td|]; simpl; [|discriminate]);
    (destruct (datetime_add _ td) as [finish|]; simpl; [|discriminate]);
    intros [= <- <-]; simpl; (split; [reflexivity|]); (split; [reflexivity|]);
    split; try discriminate; try (intros [? [=]]); eauto.
Qed.

(** X21. [detect_conflicts] never reads the fields of a completed task:
    its outcome, a result or an exception, is its outcome on the store
    without the completed tasks.  It returns only if the candidate and
    every stored task that is not 'completed' have ISO text as scheduled
    time and a number as duration (after the defaults), and either all of
    these scheduled times carry a UTC offset or none does: a stored
    unfinished task that differs from the candidate in carrying a UTC
    offset makes the call raise. *)
Theorem detect_conflicts_domain (now : datetime) (candidate : pydict)
    (self : TaskScheduler) :
  detect_conflicts now candidate (without_completed self)
    = detect_conflicts now candidate self
  /\ (forall l, detect_conflicts now candidate self = Ok l ->
        is_date (get "scheduled_time" (VTime now) candidate) = true
        /\ is_number (get "estimated_duration" (VNum 60) candidate) = true
        /\ forall id t, In (id, t) (tasks self) -> not_completed t ->
             is_date (get "scheduled_time" (VTime now) t) = true
             /\ is_number (get "estimated_duration" (VNum 60) t) = true
             /\ has_offset now t = has_offset now candidate)
  /\ (forall id t, In (id, t) (tasks self) -> not_completed t ->
        has_offset now t <> has_offset now candidate ->
        exists e, detect_conflicts now candidate self = Raise e).
Proof.
  assert (Hret : forall l, detect_conflicts now candidate self = Ok l ->
            is_date (get "scheduled_time" (VTime now) candidate) = true
            /\ is_number (get "estimated_duration" (VNum 60) candidate) = true
            /\ forall id t, In (id, t) (tasks self) -> not_completed t ->
                 is_date (get "scheduled_time" (VTime now) t) = true
                 /\ is_number (get "estimated_duration" (VNum 60) t) = true
                 /\ has_offset now t = has_offset now candidate).
  { intros l Hl. apply detect_conflicts_inv in Hl as (a & b & Hc & Hstore).
    apply task_span_fields in Hc as (Hc1 & Hc2 & Hc3).
    split; [exact Hc1|]. split; [exact Hc2|].
    intros id t Hin Hnc.
    destruct (Hstore id t Hin Hnc) as (a' & b' & Ht & Hoff).
    apply task_span_fields in Ht as (Ht1 & Ht2 & Ht3).
    split; [exact Ht1|]. split; [exact Ht2|].
    rewrite Ht3, Hc3 in Hoff.
    destruct (has_offset now t), (has_offset now candidate); try reflexivity;
      [symmetry|]; now apply Hoff. }
  split; [|split; [exact Hret|]].
  - unfold detect_conflicts, without_completed. simpl.
    destruct (task_span now candidate) as [[a b]|]; simpl; [|reflexivity].
    apply detect_conflicts_loop_without_completed.
  - intros id t Hin Hnc Hdiff.
    destruct (detect_conflicts now candidate self) as [l|e] eqn:Hl; [|eauto].
    exfalso. apply Hdiff.
    destruct (Hret l eq_refl) as (_ & _ & Hstore).
    now destruct (Hstore id t Hin Hnc) as (_ & _ & ?).
Qed.

Lemma detect_conflicts_domain_witness :
  create_task 0 "0ff5e7aa" data_offset init
  = (Ok {| cr_task := task_offset; cr_conflicts := [];
           cr_has_conflicts := false; cr_suggestion := None |}, store_offset)
  /\ tasks store_offset = [("0ff5e7aa"%string, task_offset)]
  /\ has_offset 0 task_offset = true
  /\ has_offset 0 data_B = false
  /\ exists e, detect_conflicts 0 data_B store_offset = Raise e.
Proof.
  assert (Ht : tasks store_offset = [("0ff5e7aa"%string, task_offset)])
    by by_evaluation.
  assert (Ho : has_offset 0 task_offset = true) by by_evaluation.
  assert (Hb : has_offset 0 data_B = false) by by_evaluation.
  assert (Hs : task_offset !! "status" = Some (VStr "pending")) by by_evaluation.
  split; [by_evaluation|]. split; [exact Ht|]. split; [exact Ho|].
  split; [exact Hb|].
  apply (proj2 (proj2 (detect_conflicts_domain 0 data_B store_offset))
           "0ff5e7aa"%string task_offset).
  - rewrite Ht. now left.
  - unfold not_completed. rewrite Hs. discriminate.
  - rewrite Ho, Hb. discriminate.
Defined.

(** X22. After [delete_task] has removed a task its id is unknown: the
    store no longer holds it, a second [delete_task] and an [update_task]
    of that id answer [NotFound] and change nothing.  The uniqueness of
    ids is kept. *)
Theorem delete_task_then_unknown (now : datetime) (task_id : string)
    (updates : pydict) (self self' : TaskScheduler) (task : pydict)
    (Hwf : PyDict.wf (tasks self))
    (Hdel : delete_task task_id self = (Ok (Found task), self')) :
  PyDict.lookup task_id (tasks self) = Some task
  /\ PyDict.lookup task_id (tasks self') = None
  /\ delete_task task_id self' = (Ok NotFound, self')
  /\ update_task now task_id updates self' = (Ok NotFound, self')
  /\ PyDict.wf (tasks self').
Proof.
  rewrite delete_task_eq in Hdel.
  destruct (PyDict.lookup task_id (tasks self)) as [t|] eqn:Hl; [|discriminate].
  injection Hdel as <- <-.
  assert (Hgone : PyDict.lookup task_id
                    (tasks (set_tasks (PyDict.remove task_id (tasks self)) self))
                  = None) by (simpl; now apply lookup_remove_eq).
  split; [reflexivity|]. split; [exact Hgone|].
  rewrite delete_task_eq, update_task_eq, Hgone.
  split; [reflexivity|]. split; [reflexivity|].
  simpl. now apply wf_remove.
Qed.

Lemma delete_task_then_unknown_witness :
  PyDict.wf (tasks store_AB)
  /\ delete_task "b5c6d7e8" store_AB = (Ok (Found task_B), store_A)
  /\ delete_task "b5c6d7e8" store_A = (Ok NotFound, store_A).
Proof.
  assert (H : delete_task "b5c6d7e8" store_AB = (Ok (Found task_B), store_A))
    by by_evaluation.
  split; [exact store_AB_wf|]. split; [exact H|].
  exact (proj1 (proj2 (proj2 (delete_task_then_unknown 0 "b5c6d7e8" ∅
                                store_AB store_A task_B store_AB_wf H)))).
Defined.
